(** * Django-Oauth2-Provider: provider/oauth2/models.py

    A shallow embedding of the default model implementations (Client, Grant,
    AccessToken) and of the slice of Python and Django they run on:
    dynamically typed values, exceptions, [datetime]/[timedelta] arithmetic,
    model construction with field defaults, and [Model.save]. *)

From stdpp Require Import base numbers strings list gmap.

Local Open Scope string_scope.
Local Open Scope Z_scope.

(** ** Exceptions and fallible results *)

Inductive exn :=
| TypeError | ValueError | AttributeError | IndexError | OverflowError
| InvalidGrant | UniqueConstraintError.

Inductive result (A : Type) :=
| Ok (a : A)
| Raise (e : exn).
Arguments Ok {A} a.
Arguments Raise {A} e.

#[export] Instance result_ret : MRet result := λ A a, Ok a.
#[export] Instance result_bind : MBind result := λ A B k r,
  match r with Ok a => k a | Raise e => Raise e end.

(** ** datetime.timedelta *)

Module timedelta.

Record t := { days : Z; seconds : Z; microseconds : Z }.

(** [timedelta(days, seconds, microseconds)]: the constructor carries
    microseconds into seconds and seconds into days with Python's floor
    [divmod], so that [0 <= seconds < 86400] and
    [0 <= microseconds < 1000000]; only [days] can be negative. *)
Definition make (d s us : Z) : t :=
  let s' := s + us `div` 1000000 in
  {| days := d + s' `div` 86400;
     seconds := s' `mod` 86400;
     microseconds := us `mod` 1000000 |}.

Definition zero : t := make 0 0 0.

(** [timedelta.__add__] and [timedelta.__sub__] *)
Definition add (a b : t) : t :=
  make (days a + days b) (seconds a + seconds b) (microseconds a + microseconds b).
Definition sub (a b : t) : t :=
  make (days a - days b) (seconds a - seconds b) (microseconds a - microseconds b).

(** [timedelta.__eq__] compares the normalised triples. *)
Definition eqb (a b : t) : bool :=
  (days a =? days b) && (seconds a =? seconds b) && (microseconds a =? microseconds b).

(** The exact length of the interval, in microseconds. *)
Definition total_us (a : t) : Z :=
  (days a * 86400 + seconds a) * 1000000 + microseconds a.

Definition normalised (a : t) : Prop :=
  0 ≤ seconds a < 86400 ∧ 0 ≤ microseconds a < 1000000.

End timedelta.

(** ** datetime.datetime *)

(** A [tzinfo] object.  [UTC] is the singleton [django.utils.timezone.utc];
    any other zone is known by a name, which stands for the identity of the
    Python object, and by its [utcoffset(dt)] method, a function of the
    wall-clock fields of [dt]. *)
Inductive tzinfo :=
| UTC
| Zone (name : string) (utcoffset : Z → Z → Z → timedelta.t).

(** [a is b] on tzinfo objects *)
Definition tz_is (a b : tzinfo) : bool :=
  match a, b with
  | UTC, UTC => true
  | Zone n _, Zone m _ => String.eqb n m
  | _, _ => false
  end.

Module datetime.

(** The wall-clock reading is kept as the three quantities that
    [datetime.__sub__] and [datetime.__add__] work on: the proleptic
    Gregorian ordinal of the date ([toordinal()]), the second of the day
    ([hour*3600 + minute*60 + second]) and the microsecond. *)
Record t := {
  ordinal : Z;
  second : Z;
  microsecond : Z;
  tz : option tzinfo
}.

Definition MAXORDINAL : Z := 3652059.

(** [dt.utcoffset()]: [None] for a naive value *)
Definition utcoffset (d : t) : option timedelta.t :=
  match tz d with
  | None => None
  | Some UTC => Some timedelta.zero
  | Some (Zone _ off) => Some (off (ordinal d) (second d) (microsecond d))
  end.

(** [self._tzinfo is other._tzinfo] *)
Definition same_tzinfo (a b : t) : bool :=
  match tz a, tz b with
  | None, None => true
  | Some x, Some y => tz_is x y
  | _, _ => false
  end.

(** [datetime.__sub__(self, other)] for a datetime [other]: the
    difference of the wall-clock readings when both carry the same tzinfo
    object or report equal offsets; [TypeError] when exactly one of them is
    naive; otherwise the difference corrected by the two offsets. *)
Definition sub (a b : t) : result timedelta.t :=
  let base := timedelta.make (ordinal a - ordinal b) (second a - second b)
                             (microsecond a - microsecond b) in
  if same_tzinfo a b then Ok base
  else match utcoffset a, utcoffset b with
       | Some myoff, Some otoff =>
           if timedelta.eqb myoff otoff then Ok base
           else Ok (timedelta.sub (timedelta.add base otoff) myoff)
       | _, _ => Raise TypeError
       end.

(** [datetime.__add__(self, delta)]: same tzinfo, [OverflowError] outside
    years 1..9999. *)
Definition add (a : t) (delta : timedelta.t) : result t :=
  let r := timedelta.make (ordinal a + timedelta.days delta)
                          (second a + timedelta.seconds delta)
                          (microsecond a + timedelta.microseconds delta) in
  if (0 <? timedelta.days r) && (timedelta.days r <=? MAXORDINAL) then
    Ok {| ordinal := timedelta.days r; second := timedelta.seconds r;
          microsecond := timedelta.microseconds r; tz := tz a |}
  else Raise OverflowError.

(** [datetime._cmp], behind the ordering operators: the wall-clock
    fields are compared lexicographically when both values carry the
    same tzinfo object or report equal offsets; naive against aware
    raises [TypeError]; otherwise the sign of [self - other] decides. *)
Definition lex (a b : t) : comparison :=
  match ordinal a ?= ordinal b with
  | Eq => match second a ?= second b with
          | Eq => microsecond a ?= microsecond b
          | c => c
          end
  | c => c
  end.

Definition sign (d : timedelta.t) : comparison :=
  if timedelta.days d <? 0 then Lt
  else if (timedelta.days d =? 0) && (timedelta.seconds d =? 0)
          && (timedelta.microseconds d =? 0) then Eq
  else Gt.

Definition cmp (a b : t) : result comparison :=
  if same_tzinfo a b then Ok (lex a b)
  else match utcoffset a, utcoffset b with
       | Some myoff, Some otoff =>
           if timedelta.eqb myoff otoff then Ok (lex a b)
           else diff ← sub a b; Ok (sign diff)
       | _, _ => Raise TypeError
       end.

(** [a >= b] *)
Definition ge (a b : t) : result bool :=
  c ← cmp a b; Ok (match c : comparison with Lt => false | _ => true end).

(** [dt.replace(tzinfo=z)] *)
Definition replace_tzinfo (d : t) (z : option tzinfo) : t :=
  {| ordinal := ordinal d; second := second d; microsecond := microsecond d; tz := z |}.

(** The ranges of the time-of-day quantities of an actual datetime. *)
Definition wf (d : t) : Prop :=
  0 ≤ second d < 86400 ∧ 0 ≤ microsecond d < 1000000.

(** Microseconds of the wall-clock reading since ordinal 0, and the UTC
    instant it denotes when a naive reading is taken to be UTC. *)
Definition wall_us (d : t) : Z :=
  (ordinal d * 86400 + second d) * 1000000 + microsecond d.

Definition utc_us (d : t) : Z :=
  match utcoffset d with
  | None => wall_us d
  | Some off => wall_us d - timedelta.total_us off
  end.

(** [dt.astimezone(utc)] for an aware value; a naive one is stamped UTC. *)
Definition to_utc (d : t) : t :=
  let r := timedelta.make 0 0 (utc_us d) in
  {| ordinal := timedelta.days r; second := timedelta.seconds r;
     microsecond := timedelta.microseconds r; tz := Some UTC |}.

End datetime.

(** ** django.utils.timezone *)

Module django_timezone.

Definition aware (d : datetime.t) : bool :=
  match datetime.utcoffset d with Some _ => true | None => false end.

(** [is_aware(value)] is [value.utcoffset() is not None]; on [None] the
    attribute access raises. *)
Definition is_aware (value : option datetime.t) : result bool :=
  match value with
  | None => Raise AttributeError
  | Some d => Ok (aware d)
  end.

Definition is_naive (value : option datetime.t) : result bool :=
  match value with
  | None => Raise AttributeError
  | Some d => Ok (negb (aware d))
  end.

(** The attribute lookup [timezone.utc]: Django has the attribute up to
    version 4.2; from 5.0 on the module still imports but has no [utc],
    and the lookup raises [AttributeError]. *)
Definition utc (has_utc : bool) : result tzinfo :=
  if has_utc then Ok UTC else Raise AttributeError.

(** [make_aware(value, timezone)]: refuses an aware value, otherwise
    [value.replace(tzinfo=timezone)]. *)
Definition make_aware (value : option datetime.t) (timezone : tzinfo)
  : result datetime.t :=
  match value with
  | None => Raise AttributeError
  | Some d =>
      if aware d then Raise ValueError
      else Ok (datetime.replace_tzinfo d (Some timezone))
  end.

End django_timezone.

(** ** Python values *)

(** The user model named by [AUTH_USER_MODEL] (['auth.User'] by default). *)
Module User.
Record t := { pk : option Z; username : string }.
End User.

(** What a model attribute, a keyword argument or an entry of a JSON-like
    session dict can hold. *)
#[warnings="-register-all"]
Inductive pyval :=
| PyNone
| PyBool (b : bool)
| PyInt (n : Z)
| PyStr (s : string)
| PyDict (items : list (string * pyval))
| PyUser (u : User.t).

(** Truth value testing: [None], [False], [0], the empty string
    and the empty dict are false. *)
Definition truthy (v : pyval) : bool :=
  match v with
  | PyNone => false
  | PyBool b => b
  | PyInt n => negb (n =? 0)
  | PyStr s => negb (String.eqb s EmptyString)
  | PyDict items => match items with [] => false | _ => true end
  | PyUser _ => true
  end.

(** [v == n] for an integer literal [n] ([True == 1] and [False == 0] hold
    in Python). *)
Definition py_eq_int (v : pyval) (n : Z) : bool :=
  match v with
  | PyInt m => m =? n
  | PyBool b => (if b then 1 else 0) =? n
  | _ => false
  end.

Definition dict := list (string * pyval).

(** [d.get(key, None)] on a dict *)
Fixpoint dict_get (d : dict) (key : string) : pyval :=
  match d with
  | [] => PyNone
  | (k, v) :: rest => if String.eqb k key then v else dict_get rest key
  end.

Fixpoint dict_mem (d : dict) (key : string) : bool :=
  match d with
  | [] => false
  | (k, _) :: rest => String.eqb k key || dict_mem rest key
  end.

(** [d[key] = v]: replaces the entry in place or appends a new one. *)
Fixpoint dict_set (d : dict) (key : string) (v : pyval) : dict :=
  match d with
  | [] => [(key, v)]
  | (k, v') :: rest =>
      if String.eqb k key then (k, v) :: rest else (k, v') :: dict_set rest key v
  end.

(** [data.get(key, None)] on any value: only a dict has [get]. *)
Definition py_get (data : pyval) (key : string) : result pyval :=
  match data with
  | PyDict items => Ok (dict_get items key)
  | _ => Raise AttributeError
  end.

(** [str(obj)] for an object whose [__str__] returned [v]: a result that
    is not a string is a [TypeError]. *)
Definition py_str (v : pyval) : result string :=
  match v with
  | PyStr s => Ok s
  | _ => Raise TypeError
  end.

(** ** Table rows

    The columns of each model, named after its [db_table]. *)

Module oauth2_client.
Record row := {
  id : pyval;
  user : option User.t;
  name : pyval;
  url : pyval;
  redirect_uri : pyval;
  client_id : pyval;
  client_secret : pyval;
  client_type : pyval
}.
End oauth2_client.

Module oauth2_grant.
Record row := {
  id : option Z;
  user : User.t;
  client : oauth2_client.row;
  code : string;
  expires : datetime.t;
  redirect_uri : string;
  scope : Z
}.
End oauth2_grant.

Module oauth2_accesstoken.
Record row := {
  id : option Z;
  user : User.t;
  token : string;
  client : oauth2_client.row;
  expires : option datetime.t;
  scope : Z;
  logged_out : option datetime.t;
  device_id : option string;
  created : option datetime.t;
  modified : option datetime.t
}.
End oauth2_accesstoken.

Module oauth2_refreshtoken.
Record row := {
  id : option Z;
  user : User.t;
  token : string;
  access_token : oauth2_accesstoken.row;
  client : oauth2_client.row;
  expired : bool
}.
End oauth2_refreshtoken.

(** ** The world a request runs in

    The wall clock behind [now()], the random source behind the token
    generator (a stream and the number of draws so far), and the database
    tables, keyed by primary key. *)
Record World := {
  clock : datetime.t;
  long_tokens : nat → string;
  short_tokens : nat → string;
  drawn : nat;
  grants : gmap Z oauth2_grant.row;
  accesstokens : gmap Z oauth2_accesstoken.row;
  refreshtokens : gmap Z oauth2_refreshtoken.row
}.

(** The key a new row receives, one above every stored key.  A database
    sequence also passes over the keys of deleted rows; that memory is
    not part of the tables kept here. *)
Definition next_pk {A} (table : gmap Z A) : Z :=
  1 + map_fold (λ k _ acc, Z.max k acc) 0 table.

Definition set_clock (t : datetime.t) (w : World) : World :=
  {| clock := t; long_tokens := long_tokens w; short_tokens := short_tokens w;
     drawn := drawn w; grants := grants w; accesstokens := accesstokens w;
     refreshtokens := refreshtokens w |}.

Definition set_drawn (n : nat) (w : World) : World :=
  {| clock := clock w; long_tokens := long_tokens w; short_tokens := short_tokens w;
     drawn := n; grants := grants w; accesstokens := accesstokens w;
     refreshtokens := refreshtokens w |}.

Definition set_grants (m : gmap Z oauth2_grant.row) (w : World) : World :=
  {| clock := clock w; long_tokens := long_tokens w; short_tokens := short_tokens w;
     drawn := drawn w; grants := m; accesstokens := accesstokens w;
     refreshtokens := refreshtokens w |}.

Definition set_accesstokens (m : gmap Z oauth2_accesstoken.row) (w : World) : World :=
  {| clock := clock w; long_tokens := long_tokens w; short_tokens := short_tokens w;
     drawn := drawn w; grants := grants w; accesstokens := m;
     refreshtokens := refreshtokens w |}.

Definition set_refreshtokens (m : gmap Z oauth2_refreshtoken.row) (w : World) : World :=
  {| clock := clock w; long_tokens := long_tokens w; short_tokens := short_tokens w;
     drawn := drawn w; grants := grants w; accesstokens := accesstokens w;
     refreshtokens := m |}.

(** Computations that read and change the world and may raise. *)
Definition M (A : Type) : Type := World → result A * World.

#[export] Instance M_ret : MRet M := λ A a w, (Ok a, w).
#[export] Instance M_bind : MBind M := λ A B k m w,
  match m w with
  | (Ok a, w') => k a w'
  | (Raise e, w') => (Raise e, w')
  end.

Definition lift {A} (r : result A) : M A := λ w, (r, w).

(** ** The rest of the provider package

    [provider/constants.py] and [provider/utils.py] are not part of this
    file.  What models.py imports from them, and the outcome of its guarded
    import of [django.utils.timezone], are gathered here. *)
Record Provider := {
  (** [constants.SCOPES], pairs of a value and a label *)
  SCOPES : list (Z * string);
  (** the class body of AccessToken evaluates [constants.SCOPES[0][0]], so
      models.py imports only when there is a first entry *)
  SCOPES_defined : SCOPES ≠ [];
  (** the configured lifetimes *)
  EXPIRE_DELTA : timedelta.t;
  EXPIRE_DELTA_PUBLIC : timedelta.t;
  EXPIRE_CODE_DELTA : timedelta.t;
  (** [utils.serialize_instance] and [utils.deserialize_instance] for the
      user model *)
  serialize_instance : User.t → result pyval;
  deserialize_instance : pyval → result User.t;
  (** the module-level name [timezone]: [false] stands for the [None] bound
      by the [except ImportError] branch *)
  timezone : bool;
  (** whether the imported [django.utils.timezone] has the attribute
      [utc] *)
  timezone_utc : bool
}.

Module utils.

(** Modelled from the spec: [now()] of provider/utils.py, the single time
    source; it reads the clock. *)
Definition now : M datetime.t := λ w, (Ok (clock w), w).

(** Modelled from the spec: [long_token()] of provider/utils.py, the
    Token Generator's long identifier; each call consumes one draw of the
    random source. *)
Definition long_token : M string :=
  λ w, (Ok (long_tokens w (drawn w)), set_drawn (S (drawn w)) w).

(** Modelled from the spec: [short_token()] of provider/utils.py, the
    Token Generator's short identifier. *)
Definition short_token : M string :=
  λ w, (Ok (short_tokens w (drawn w)), set_drawn (S (drawn w)) w).

(** Modelled from the spec: [get_code_expiry()] of provider/utils.py,
    the Expiry Policy for grants: [now()] plus the configured code
    lifetime. *)
Definition get_code_expiry (P : Provider) : M datetime.t :=
  t ← now; lift (datetime.add t (EXPIRE_CODE_DELTA P)).

(** Modelled from the spec: [get_token_expiry(public)] of
    provider/utils.py, the Expiry Policy for access tokens: [now()] plus
    the configured lifetime of the client type. *)
Definition get_token_expiry (P : Provider) (public : bool) : M datetime.t :=
  t ← now;
  lift (datetime.add t (if public then EXPIRE_DELTA_PUBLIC P else EXPIRE_DELTA P)).

End utils.

(** ** class Client *)

Module Client.
Import oauth2_client.

Abbreviation t := oauth2_client.row.

(** [cls._meta.fields]: the automatic primary key, then the declared
    fields in order; [remote_field] is set on the foreign key only. *)
Record Field := { field_name : string; remote_field : bool }.

Definition fields : list Field :=
  [ {| field_name := "id"; remote_field := false |};
    {| field_name := "user"; remote_field := true |};
    {| field_name := "name"; remote_field := false |};
    {| field_name := "url"; remote_field := false |};
    {| field_name := "redirect_uri"; remote_field := false |};
    {| field_name := "client_id"; remote_field := false |};
    {| field_name := "client_secret"; remote_field := false |};
    {| field_name := "client_type"; remote_field := false |} ].

(** A keyword argument, or the field's default when the keyword is not
    given ([Field.get_default()]). *)
Definition kwarg (kwargs : dict) (key : string) (default : M pyval) : M pyval :=
  if dict_mem kwargs key then mret (dict_get kwargs key) else default.

(** Assignment to the foreign-key attribute goes through Django's
    related-object descriptor, which type-checks the value: [None] and an
    instance of the user model are accepted, anything else raises
    [ValueError] ("Cannot assign ...: Client.user must be a User
    instance"). *)
Definition set_user (v : pyval) : result (option User.t) :=
  match v with
  | PyNone => Ok None
  | PyUser u => Ok (Some u)
  | _ => Raise ValueError
  end.

(** The names of the fields, in declaration order. *)
Definition field_names : list string := map field_name fields.

(** The keywords [Model.__init__] takes: a field name, the [pk] property
    or the column name [user_id] of the foreign key. *)
Definition accepted (key : string) : bool :=
  existsb (String.eqb key) (field_names ++ ["pk"; "user_id"]).

(** Whether some keyword is none of these; the read-only properties
    [sandbox_client] and [is_public] cannot be set and count as
    unexpected too. *)
Definition unexpected (kwargs : dict) : bool :=
  existsb (λ kv, negb (accepted kv.1)) kwargs.

(** The constructor call [cls] with the keyword dict, Django's
    [Model.__init__]: the fields are filled in
    declaration order, each from its keyword or else from its default
    ([short_token] and [long_token] for the identifier and the secret,
    the empty string for the other character fields, [None] otherwise).  Values are
    stored as given; only the foreign key is checked.  The keywords left
    over are handled afterwards: [pk] sets the primary key, and a keyword
    that is not accepted raises [TypeError].  A [user_id] keyword stores a
    bare key, whose instance Django loads from the user table on first
    access; the row holds instances only, so it is left without one. *)
Definition init (kwargs : dict) : M t :=
  v_id ← kwarg kwargs "id" (mret PyNone);
  v_user ← kwarg kwargs "user" (mret PyNone);
  u ← lift (set_user v_user);
  v_name ← kwarg kwargs "name" (mret (PyStr EmptyString));
  v_url ← kwarg kwargs "url" (mret (PyStr EmptyString));
  v_redirect_uri ← kwarg kwargs "redirect_uri" (mret (PyStr EmptyString));
  v_client_id ← kwarg kwargs "client_id" (s ← utils.short_token; mret (PyStr s));
  v_client_secret ← kwarg kwargs "client_secret" (s ← utils.long_token; mret (PyStr s));
  v_client_type ← kwarg kwargs "client_type" (mret PyNone);
  v_pk ← kwarg kwargs "pk" (mret v_id);
  if unexpected kwargs then lift (Raise TypeError)
  else
    mret {| id := v_pk; user := u; name := v_name; url := v_url;
            redirect_uri := v_redirect_uri; client_id := v_client_id;
            client_secret := v_client_secret; client_type := v_client_type |}.

(** The instance whose attributes are the entries a dict has under the
    field names ([None] where the key is missing), with a given user. *)
Definition from_entries (d : dict) (u : option User.t) : t :=
  {| id := dict_get d "id"; user := u; name := dict_get d "name";
     url := dict_get d "url"; redirect_uri := dict_get d "redirect_uri";
     client_id := dict_get d "client_id";
     client_secret := dict_get d "client_secret";
     client_type := dict_get d "client_type" |}.

(** [def __str__(self)]: the redirect URI, whatever the attribute
    holds. *)
Definition __str__ (self : t) : pyval := redirect_uri self.

Section methods.
Context (P : Provider).

(** [def get_default_token_expiry(self)] *)
Definition get_default_token_expiry (self : t) : M datetime.t :=
  let public := py_eq_int (client_type self) 1 in
  utils.get_token_expiry P public.

(** [def serialize(self)] *)
Definition serialize (self : t) : result pyval :=
  v_user ← match user self with
           | Some u => serialize_instance P u
           | None => Ok (PyStr EmptyString)
           end;
  Ok (PyDict [ ("user", v_user);
               ("name", name self);
               ("url", url self);
               ("redirect_uri", redirect_uri self);
               ("client_id", client_id self);
               ("client_secret", client_secret self);
               ("client_type", client_type self) ]).

(** [@property sandbox_client]: [x and y] is [x] when [x] is false,
    so a client without a user yields [None], not [False]. *)
Definition sandbox_client (self : t) : pyval :=
  match user self with
  | None => PyNone
  | Some u => PyBool (String.eqb (User.username u) "oauth2-sandbox-user")
  end.

(** [@property is_public]: [self.user != None] *)
Definition is_public (self : t) : bool :=
  match user self with
  | None => false
  | Some _ => true
  end.

(** The body of the [for field in cls._meta.fields] loop of
    [deserialize]. *)
Definition deserialize_field (data : pyval) (kwargs : dict) (field : Field)
  : result dict :=
  let name := field_name field in
  val ← py_get data name;
  val ← (if truthy val && remote_field field
         then u ← deserialize_instance P val; Ok (PyUser u)
         else Ok val);
  Ok (dict_set kwargs name val).

Fixpoint deserialize_loop (data : pyval) (kwargs : dict) (fs : list Field)
  : result dict :=
  match fs with
  | [] => Ok kwargs
  | field :: rest =>
      kwargs ← deserialize_field data kwargs field;
      deserialize_loop data kwargs rest
  end.

(** [@classmethod def deserialize(cls, data)] *)
Definition deserialize (data : pyval) : M (option t) :=
  if negb (truthy data) then mret None
  else
    kwargs ← lift (deserialize_loop data [] fields);
    self ← init kwargs;
    mret (Some self).

End methods.
End Client.

(** ** class Grant *)

Module Grant.
Import oauth2_grant.

Abbreviation t := oauth2_grant.row.

(** The keyword arguments of the constructor; [None] is a keyword that
    was not given. *)
Record kwargs := {
  kw_user : User.t;
  kw_client : Client.t;
  kw_code : option string;
  kw_expires : option datetime.t;
  kw_redirect_uri : option string;
  kw_scope : option Z
}.

Definition or_default {A} (given : option A) (default : M A) : M A :=
  match given with Some a => mret a | None => default end.

(** [def __str__(self)] *)
Definition __str__ (self : t) : string := code self.

Section methods.
Context (P : Provider).

(** The constructor: fields in declaration order, [code] with
    [default=long_token], [expires] with [default=get_code_expiry],
    [redirect_uri] blank, [scope] with [default=0]; a callable default
    is called when the instance is built. *)
Definition init (kw : kwargs) : M t :=
  v_code ← or_default (kw_code kw) utils.long_token;
  v_expires ← or_default (kw_expires kw) (utils.get_code_expiry P);
  v_redirect_uri ← or_default (kw_redirect_uri kw) (mret EmptyString);
  v_scope ← or_default (kw_scope kw) (mret 0);
  mret {| id := None; user := kw_user kw; client := kw_client kw;
          code := v_code; expires := v_expires;
          redirect_uri := v_redirect_uri; scope := v_scope |}.

End methods.
End Grant.

(** ** class AccessToken *)

Module AccessToken.
Import oauth2_accesstoken.

Abbreviation t := oauth2_accesstoken.row.

Record kwargs := {
  kw_id : option Z;
  kw_user : User.t;
  kw_token : option string;
  kw_client : Client.t;
  kw_expires : option datetime.t;
  kw_scope : option Z
}.

Definition set_expires (e : option datetime.t) (self : t) : t :=
  {| id := id self; user := user self; token := token self; client := client self;
     expires := e; scope := scope self; logged_out := logged_out self;
     device_id := device_id self; created := created self;
     modified := modified self |}.

(** [models.Model.save]: a row without a primary key, or whose key is
    not in the table, is inserted, otherwise it is updated; [modified]
    ([auto_now]) is stamped on every save and [created] ([auto_now_add])
    on insertion.  The write itself is taken to succeed: what Django's
    check of the related rows or the database can raise (an unsaved user
    or client, a violated constraint) is not covered. *)
Definition Model_save (self : t) : M t := λ w,
  let table := accesstokens w in
  let add := match id self with
             | None => true
             | Some k => bool_decide (table !! k = None)
             end in
  let pk := match id self with Some k => k | None => next_pk table end in
  let saved :=
    {| id := Some pk; user := user self; token := token self;
       client := client self; expires := expires self; scope := scope self;
       logged_out := logged_out self; device_id := device_id self;
       created := if add then Some (clock w) else created self;
       modified := Some (clock w) |} in
  (Ok saved, set_accesstokens (<[pk := saved]> table) w).

(** [scopes[0][0]] for a tuple that has a first entry *)
Definition first_value (scopes : list (Z * string)) : scopes ≠ [] → Z :=
  match scopes with
  | [] => λ H, False_rect Z (H eq_refl)
  | (value, _) :: _ => λ _, value
  end.

(** [x and y] on fallible tests: [y] is evaluated only when [x] holds. *)
Definition and_then (x : result bool) (y : result bool) : result bool :=
  b ← x; if b : bool then y else Ok false.

(** [def __str__(self)] *)
Definition __str__ (self : t) : string := token self.

Section methods.
Context (P : Provider).

(** [default=constants.SCOPES[0][0]], a value fixed when the class body
    runs. *)
Definition scope_default : Z := first_value (SCOPES P) (SCOPES_defined P).

(** The constructor: [token] with [default=long_token], [scope] with
    the default above, [expires] and the remaining fields without a
    default. *)
Definition init (kw : kwargs) : M t :=
  v_token ← Grant.or_default (kw_token kw) utils.long_token;
  v_scope ← Grant.or_default (kw_scope kw) (mret scope_default);
  mret {| id := kw_id kw; user := kw_user kw; token := v_token;
          client := kw_client kw; expires := kw_expires kw; scope := v_scope;
          logged_out := None; device_id := None; created := None;
          modified := None |}.

(** [def save(self, *args, **kwargs)] *)
Definition save (self : t) : M t :=
  self ← match expires self with
         | None =>
             e ← Client.get_default_token_expiry P (client self);
             mret (set_expires (Some e) self)
         | Some _ => mret self
         end;
  Model_save self.

(** The [if timezone:] block of [get_expire_delta]: the pair
    (expiration, reference) it leaves behind. *)
Definition align (expiration : option datetime.t) (reference : datetime.t)
  : result (option datetime.t * datetime.t) :=
  if timezone P then
    c ← and_then (django_timezone.is_aware (Some reference))
                 (django_timezone.is_naive expiration);
    if c : bool then
      utc ← django_timezone.utc (timezone_utc P);
      e ← django_timezone.make_aware expiration utc;
      Ok (Some e, reference)
    else
      c ← and_then (django_timezone.is_naive (Some reference))
                   (django_timezone.is_aware expiration);
      if c : bool then
        utc ← django_timezone.utc (timezone_utc P);
        r ← django_timezone.make_aware (Some reference) utc;
        Ok (expiration, r)
      else Ok (expiration, reference)
  else Ok (expiration, reference).

(** [expiration - reference]; [None] has no subtraction. *)
Definition minus (expiration : option datetime.t) (reference : datetime.t)
  : result timedelta.t :=
  match expiration with
  | None => Raise TypeError
  | Some e => datetime.sub e reference
  end.

(** [def get_expire_delta(self, reference=None)] *)
Definition get_expire_delta (self : t) (reference : option datetime.t) : M Z :=
  reference ← match reference with
              | None => utils.now
              | Some r => mret r
              end;
  let expiration := expires self in
  '(expiration, reference) ← lift (align expiration reference);
  delta ← lift (minus expiration reference);
  mret (timedelta.days delta * 86400 + timedelta.seconds delta).

End methods.
End AccessToken.

(** ** class RefreshToken *)

Module RefreshToken.
Import oauth2_refreshtoken.

Abbreviation t := oauth2_refreshtoken.row.

Record kwargs := {
  kw_user : User.t;
  kw_token : option string;
  kw_access_token : AccessToken.t;
  kw_client : Client.t;
  kw_expired : option bool
}.

(** The constructor: [token] with [default=long_token], [expired] with
    [default=False]. *)
Definition init (kw : kwargs) : M t :=
  v_token ← Grant.or_default (kw_token kw) utils.long_token;
  v_expired ← Grant.or_default (kw_expired kw) (mret false);
  mret {| id := None; user := kw_user kw; token := v_token;
          access_token := kw_access_token kw; client := kw_client kw;
          expired := v_expired |}.

(** [def __str__(self)] *)
Definition __str__ (self : t) : string := token self.

End RefreshToken.

(** ** The grant life cycle

    The operations that issue a grant and exchange it for tokens live in
    the views of the provider package, which are not part of this file. *)

Module GrantLifecycle.

(** Modelled from the spec: the primary key a stored grant receives. *)
Definition set_id (pk : Z) (g : Grant.t) : Grant.t :=
  {| oauth2_grant.id := Some pk; oauth2_grant.user := oauth2_grant.user g;
     oauth2_grant.client := oauth2_grant.client g;
     oauth2_grant.code := oauth2_grant.code g;
     oauth2_grant.expires := oauth2_grant.expires g;
     oauth2_grant.redirect_uri := oauth2_grant.redirect_uri g;
     oauth2_grant.scope := oauth2_grant.scope g |}.

(** Modelled from the spec: the rows of the grant table that carry a
    given code (the uniqueness index on codes). *)
Definition with_code (code : string) (table : gmap Z Grant.t) : gmap Z Grant.t :=
  filter (λ kv, oauth2_grant.code kv.2 = code) table.

(** Modelled from the spec: the repository's [get_by(field, value)],
    here the single grant stored under a code, if any. *)
Definition get_by_code (code : string) (table : gmap Z Grant.t)
  : option (Z * Grant.t) :=
  head (map_to_list (with_code code table)).

(** Modelled from the spec: the rows of the access-token table that
    carry a given token string. *)
Definition with_access_token (token : string) (table : gmap Z AccessToken.t)
  : gmap Z AccessToken.t :=
  filter (λ kv, oauth2_accesstoken.token kv.2 = token) table.

(** Modelled from the spec: the rows of the refresh-token table that
    carry a given token string. *)
Definition with_refresh_token (token : string) (table : gmap Z RefreshToken.t)
  : gmap Z RefreshToken.t :=
  filter (λ kv, oauth2_refreshtoken.token kv.2 = token) table.

(** Modelled from the spec: the repository's [create(entity)], which
    answers [UniqueConstraintError] when the code is already stored. *)
Definition create_grant (g : Grant.t) : M Grant.t := λ w,
  if decide (with_code (oauth2_grant.code g) (grants w) = ∅) then
    let pk := next_pk (grants w) in
    let g' := set_id pk g in
    (Ok g', set_grants (<[pk := g']> (grants w)) w)
  else (Raise UniqueConstraintError, w).

(** Modelled from the spec: a step that either happens entirely or
    leaves the world as it was. *)
Definition atomically {A} (m : M A) : M A := λ w,
  match m w with
  | (Ok a, w') => (Ok a, w')
  | (Raise e, _) => (Raise e, w)
  end.

Section operations.
Context (P : Provider).

(** Modelled from the spec: [issue(user, client, redirect_uri, scope)]
    of section 4.4, which generates the code via the Token Generator
    and the expiry via the Expiry Policy (the defaults of the Grant
    model) and persists the grant. *)
Definition issue (user : User.t) (client : Client.t) (redirect_uri : string)
    (scope : Z) : M Grant.t :=
  g ← Grant.init P {| Grant.kw_user := user; Grant.kw_client := client;
                      Grant.kw_code := None; Grant.kw_expires := None;
                      Grant.kw_redirect_uri := Some redirect_uri;
                      Grant.kw_scope := Some scope |};
  create_grant g.

(** Modelled from the spec: [create] for the access-token table; token
    strings are unique, so a collision is a [UniqueConstraintError].
    The access token is written by its own [save], which is where it
    gets its expiry. *)
Definition create_access_token (tok : AccessToken.t) : M AccessToken.t := λ w,
  if decide (with_access_token (oauth2_accesstoken.token tok) (accesstokens w) = ∅)
  then AccessToken.save P tok w
  else (Raise UniqueConstraintError, w).

(** Modelled from the spec: [create] for the refresh-token table, with
    the same uniqueness rule. *)
Definition create_refresh_token (r : RefreshToken.t) : M RefreshToken.t := λ w,
  if decide (with_refresh_token (oauth2_refreshtoken.token r) (refreshtokens w) = ∅)
  then
    let pk := next_pk (refreshtokens w) in
    let r' := {| oauth2_refreshtoken.id := Some pk;
                 oauth2_refreshtoken.user := oauth2_refreshtoken.user r;
                 oauth2_refreshtoken.token := oauth2_refreshtoken.token r;
                 oauth2_refreshtoken.access_token := oauth2_refreshtoken.access_token r;
                 oauth2_refreshtoken.client := oauth2_refreshtoken.client r;
                 oauth2_refreshtoken.expired := oauth2_refreshtoken.expired r |} in
    (Ok r', set_refreshtokens (<[pk := r']> (refreshtokens w)) w)
  else (Raise UniqueConstraintError, w).

(** Modelled from the spec: the paired AccessToken and RefreshToken
    created by a successful exchange. *)
Definition mint (user : User.t) (client : Client.t) (scope : Z)
  : M (AccessToken.t * RefreshToken.t) :=
  tok ← AccessToken.init P {| AccessToken.kw_id := None;
                              AccessToken.kw_user := user;
                              AccessToken.kw_token := None;
                              AccessToken.kw_client := client;
                              AccessToken.kw_expires := None;
                              AccessToken.kw_scope := Some scope |};
  tok ← create_access_token tok;
  rt ← utils.long_token;
  r ← create_refresh_token {| oauth2_refreshtoken.id := None;
                              oauth2_refreshtoken.user := user;
                              oauth2_refreshtoken.token := rt;
                              oauth2_refreshtoken.access_token := tok;
                              oauth2_refreshtoken.client := client;
                              oauth2_refreshtoken.expired := false |};
  mret (tok, r).

(** Modelled from the spec: [exchange(code, client, redirect_uri)] of
    section 4.4.  It fails with [InvalidGrant] if the code is unknown
    or already exchanged (no grant is stored under it), if the
    redirect URI differs, or if [current_time >= expires]; on success
    it atomically deletes the grant and creates the token pair. *)
Definition exchange (code : string) (client : Client.t) (redirect_uri : string)
  : M AccessToken.t :=
  atomically (λ w,
    match get_by_code code (grants w) with
    | None => (Raise InvalidGrant, w)
    | Some (pk, g) =>
        if negb (String.eqb (oauth2_grant.redirect_uri g) redirect_uri)
        then (Raise InvalidGrant, w)
        else
          match datetime.ge (clock w) (oauth2_grant.expires g) with
          | Raise e => (Raise e, w)
          | Ok true => (Raise InvalidGrant, w)
          | Ok false =>
              match mint (oauth2_grant.user g) client (oauth2_grant.scope g) w with
              | (Ok (tok, _), w') =>
                  (Ok tok, set_grants (delete pk (grants w')) w')
              | (Raise e, w') => (Raise e, w')
              end
          end
    end).

End operations.
End GrantLifecycle.

(** ** Sample data *)

Module Sample.

(** A sample configuration: scopes read (2), write (4) and read+write
    (6), one year for confidential clients, thirty days for public ones,
    ten minutes for a code. *)
Definition provider (tz : bool) : Provider :=
  {| SCOPES := [(2, "read"); (4, "write"); (6, "read+write")];
     SCOPES_defined := ltac:(discriminate);
     EXPIRE_DELTA := timedelta.make 365 0 0;
     EXPIRE_DELTA_PUBLIC := timedelta.make 30 0 0;
     EXPIRE_CODE_DELTA := timedelta.make 0 600 0;
     serialize_instance := λ u, Ok (PyDict [("username", PyStr (User.username u))]);
     deserialize_instance := λ v,
       match v with
       | PyDict d =>
           match dict_get d "username" with
           | PyStr s => Ok {| User.pk := None; User.username := s |}
           | _ => Raise ValueError
           end
       | _ => Raise AttributeError
       end;
     timezone := tz;
     timezone_utc := true |}.

(** The same configuration on a Django that imports
    [django.utils.timezone] without the attribute [utc]. *)
Definition provider_without_utc : Provider :=
  {| SCOPES := SCOPES (provider true);
     SCOPES_defined := SCOPES_defined (provider true);
     EXPIRE_DELTA := EXPIRE_DELTA (provider true);
     EXPIRE_DELTA_PUBLIC := EXPIRE_DELTA_PUBLIC (provider true);
     EXPIRE_CODE_DELTA := EXPIRE_CODE_DELTA (provider true);
     serialize_instance := serialize_instance (provider true);
     deserialize_instance := deserialize_instance (provider true);
     timezone := true;
     timezone_utc := false |}.

Definition at_ (ordinal second microsecond : Z) (z : option tzinfo) : datetime.t :=
  {| datetime.ordinal := ordinal; datetime.second := second;
     datetime.microsecond := microsecond; datetime.tz := z |}.

(** 2021-07-29 01:00:00 UTC *)
Definition t0 : datetime.t := at_ 738000 3600 0 (Some UTC).

Definition world : World :=
  {| clock := t0;
     long_tokens := λ n, match n with O => "L0" | S O => "L1" | S (S O) => "L2" | _ => "L3" end;
     short_tokens := λ n, match n with O => "s0" | _ => "s1" end;
     drawn := 0;
     grants := ∅; accesstokens := ∅; refreshtokens := ∅ |}.

Definition alice : User.t := {| User.pk := Some 1; User.username := "alice" |}.
Definition sandbox : User.t :=
  {| User.pk := Some 2; User.username := "oauth2-sandbox-user" |}.

Definition app (owner : option User.t) (client_type : Z) : Client.t :=
  {| oauth2_client.id := PyInt 1; oauth2_client.user := owner;
     oauth2_client.name := PyStr "app"; oauth2_client.url := PyStr "http://app";
     oauth2_client.redirect_uri := PyStr "http://app/cb";
     oauth2_client.client_id := PyStr "cid";
     oauth2_client.client_secret := PyStr "secret";
     oauth2_client.client_type := PyInt client_type |}.

Definition token (expires : option datetime.t) : AccessToken.t :=
  {| oauth2_accesstoken.id := None; oauth2_accesstoken.user := alice;
     oauth2_accesstoken.token := "tok";
     oauth2_accesstoken.client := app (Some alice) 1;
     oauth2_accesstoken.expires := expires; oauth2_accesstoken.scope := 2;
     oauth2_accesstoken.logged_out := None; oauth2_accesstoken.device_id := None;
     oauth2_accesstoken.created := None; oauth2_accesstoken.modified := None |}.

(** A grant issued to [alice] in the sample world, and the world after. *)
Definition grant : Grant.t :=
  {| oauth2_grant.id := Some 1; oauth2_grant.user := alice;
     oauth2_grant.client := app (Some alice) 1; oauth2_grant.code := "L0";
     oauth2_grant.expires := at_ 738000 4200 0 (Some UTC);
     oauth2_grant.redirect_uri := "http://app/cb"; oauth2_grant.scope := 2 |}.

Definition world_after_issue : World :=
  set_grants {[ 1 := grant ]} (set_drawn 1 world).

(** The last day a datetime can hold, 9999-12-31, and a world whose
    clock shows it. *)
Definition last_day : datetime.t := at_ datetime.MAXORDINAL 0 0 (Some UTC).
Definition late_world : World := set_clock last_day world.

(** A session dict that names a client but carries no user, no
    identifier and no secret, with a key that is not a field. *)
Definition partial_entries : dict :=
  [("name", PyStr "app"); ("client_type", PyInt 1); ("color", PyStr "red")].

(** The sample token as the sample world stores it on first save. *)
Definition saved_token : AccessToken.t :=
  {| oauth2_accesstoken.id := Some 1; oauth2_accesstoken.user := alice;
     oauth2_accesstoken.token := "tok";
     oauth2_accesstoken.client := app (Some alice) 1;
     oauth2_accesstoken.expires := Some (at_ 738030 3600 0 (Some UTC));
     oauth2_accesstoken.scope := 2;
     oauth2_accesstoken.logged_out := None; oauth2_accesstoken.device_id := None;
     oauth2_accesstoken.created := Some t0; oauth2_accesstoken.modified := Some t0 |}.

Definition world_after_save : World :=
  set_accesstokens {[ 1 := saved_token ]} world.

(** Central European Summer Time, two hours ahead of UTC *)
Definition cest : tzinfo := Zone "Europe/Berlin" (λ _ _ _, timedelta.make 0 7200 0).

End Sample.

(** * Properties *)

(** ** Client *)

(** C1 (as amended): for every Client, [is_public] is true if and only if
    the client has an owning user set. *)
Theorem is_public_iff_user_set (c : Client.t) :
  Client.is_public c = true ↔ oauth2_client.user c ≠ None.
Proof.
  unfold Client.is_public. destruct (oauth2_client.user c); split; intros H.
  - discriminate.
  - reflexivity.
  - discriminate.
  - contradiction.
Qed.

(** C1 (as stated) fails: a client registered without a user is not
    public, although its user reference is absent. *)
Lemma is_public_no_user_counterexample :
  ¬ (Client.is_public (Sample.app None 1) = true
     ↔ oauth2_client.user (Sample.app None 1) = None).
Proof. intros [_ H]. specialize (H eq_refl). discriminate H. Qed.

(** C7: [get_default_token_expiry] delegates to [get_token_expiry], and
    the flag it passes is true exactly when [client_type == 1] holds (the
    integer 1, or Python's [True], which equals 1). *)
Theorem get_default_token_expiry_delegates (P : Provider) (c : Client.t) :
  ∃ public : bool,
    Client.get_default_token_expiry P c = utils.get_token_expiry P public
    ∧ (public = true
       ↔ oauth2_client.client_type c = PyInt 1
         ∨ oauth2_client.client_type c = PyBool true).
Proof.
  exists (py_eq_int (oauth2_client.client_type c) 1). split; [reflexivity|].
  unfold py_eq_int. destruct (oauth2_client.client_type c) as [|b|n|s|d|u].
  - split; [discriminate | intros [H|H]; discriminate].
  - destruct b; cbn; split; auto; try discriminate.
    intros [H|H]; discriminate.
  - rewrite Z.eqb_eq. split.
    + intros ->. by left.
    + intros [H|H]; [by inversion H | discriminate].
  - split; [discriminate | intros [H|H]; discriminate].
  - split; [discriminate | intros [H|H]; discriminate].
  - split; [discriminate | intros [H|H]; discriminate].
Qed.

(** C10: [sandbox_client] is true if and only if the client has an owning
    user whose username is exactly ['oauth2-sandbox-user']; without an
    owning user the property is [None], which is false. *)
Theorem sandbox_client_iff (c : Client.t) :
  (truthy (Client.sandbox_client c) = true
   ↔ ∃ u, oauth2_client.user c = Some u
          ∧ User.username u = "oauth2-sandbox-user")
  ∧ truthy (Client.sandbox_client c)
    = match oauth2_client.user c with
      | None => false
      | Some u => bool_decide (User.username u = "oauth2-sandbox-user")
      end.
Proof.
  unfold Client.sandbox_client. destruct (oauth2_client.user c) as [u|]; cbn.
  - split.
    + rewrite String.eqb_eq. split.
      * intros H. by exists u.
      * intros (u' & [= <-] & H). done.
    + destruct (String.eqb_spec (User.username u) "oauth2-sandbox-user") as [E|E].
      * by rewrite bool_decide_eq_true_2.
      * by rewrite bool_decide_eq_false_2.
  - split; [|reflexivity]. split; [discriminate|]. intros (u & H & _). discriminate.
Qed.

Example sandbox_client_samples :
  truthy (Client.sandbox_client (Sample.app (Some Sample.sandbox) 0)) = true
  ∧ truthy (Client.sandbox_client (Sample.app (Some Sample.alice) 0)) = false
  ∧ Client.sandbox_client (Sample.app None 0) = PyNone.
Proof. repeat split; reflexivity. Qed.

(** ** Field defaults *)

Lemma first_value_head (scopes : list (Z * string)) (H : scopes ≠ [])
    (value : Z) (label : string) (rest : list (Z * string)) :
  scopes = (value, label) :: rest → AccessToken.first_value scopes H = value.
Proof. intros ->. reflexivity. Qed.

(** C9: an AccessToken built without an explicit scope gets the value of
    the first entry of [SCOPES]. *)
Theorem access_token_scope_default
    (P : Provider) (kw : AccessToken.kwargs) (w : World)
    (value : Z) (label : string) (rest : list (Z * string))
    (Hscopes : SCOPES P = (value, label) :: rest)
    (Hkw : AccessToken.kw_scope kw = None) :
  ∃ tok w',
    AccessToken.init P kw w = (Ok tok, w')
    ∧ oauth2_accesstoken.scope tok = value.
Proof.
  unfold AccessToken.init, AccessToken.scope_default. rewrite Hkw.
  rewrite (first_value_head _ _ value label rest Hscopes).
  destruct (AccessToken.kw_token kw) as [s|]; cbn; eauto.
Qed.

Lemma access_token_scope_default_witness :
  ∃ tok w',
    AccessToken.init (Sample.provider true)
      {| AccessToken.kw_id := None; AccessToken.kw_user := Sample.alice;
         AccessToken.kw_token := None;
         AccessToken.kw_client := Sample.app (Some Sample.alice) 1;
         AccessToken.kw_expires := None; AccessToken.kw_scope := None |}
      Sample.world = (Ok tok, w')
    ∧ oauth2_accesstoken.scope tok = 2.
Proof.
  apply (access_token_scope_default (Sample.provider true) _ Sample.world
           2 "read" [(4, "write"); (6, "read+write")]); reflexivity.
Defined.

(** C8: in a Grant built without an explicit code, the code is what
    [long_token()] returns, and in a Grant built without an explicit
    expiry, the expiry is what [get_code_expiry()] returns, the clock
    reading plus the configured code lifetime; explicit values are kept. *)
Theorem grant_defaults
    (P : Provider) (kw : Grant.kwargs) (w : World) (e : datetime.t)
    (Hrange : datetime.add (clock w) (EXPIRE_CODE_DELTA P) = Ok e) :
  ∃ g w',
    Grant.init P kw w = (Ok g, w')
    ∧ match Grant.kw_code kw with
      | None => ∃ w1, utils.long_token w = (Ok (oauth2_grant.code g), w1)
      | Some code => oauth2_grant.code g = code
      end
    ∧ match Grant.kw_expires kw with
      | None => oauth2_grant.expires g = e
                ∧ utils.get_code_expiry P w' = (Ok (oauth2_grant.expires g), w')
      | Some expires => oauth2_grant.expires g = expires
      end.
Proof.
  assert (Hpolicy : ∀ w1, clock w1 = clock w →
                          utils.get_code_expiry P w1 = (Ok e, w1)).
  { intros w1 Hclock. unfold utils.get_code_expiry, utils.now, lift, mbind, M_bind.
    by rewrite Hclock, Hrange. }
  unfold Grant.init, Grant.or_default.
  destruct (Grant.kw_code kw) as [code|], (Grant.kw_expires kw) as [expires|],
    (Grant.kw_redirect_uri kw) as [uri|], (Grant.kw_scope kw) as [scope|];
    unfold mbind, M_bind, mret, M_ret, utils.long_token;
    rewrite ?Hpolicy by reflexivity;
    eexists _, _; (split; [reflexivity|]); cbn;
    repeat split; eauto.
Qed.

Lemma grant_defaults_witness :
  ∃ g w',
    Grant.init (Sample.provider true)
      {| Grant.kw_user := Sample.alice; Grant.kw_client := Sample.app (Some Sample.alice) 1;
         Grant.kw_code := None; Grant.kw_expires := None;
         Grant.kw_redirect_uri := Some "http://app/cb"; Grant.kw_scope := Some 2 |}
      Sample.world = (Ok g, w')
    ∧ (∃ w1, utils.long_token Sample.world = (Ok (oauth2_grant.code g), w1))
    ∧ oauth2_grant.expires g = Sample.at_ 738000 4200 0 (Some UTC)
      ∧ utils.get_code_expiry (Sample.provider true) w' = (Ok (oauth2_grant.expires g), w').
Proof.
  apply (grant_defaults (Sample.provider true)
           {| Grant.kw_user := Sample.alice;
              Grant.kw_client := Sample.app (Some Sample.alice) 1;
              Grant.kw_code := None; Grant.kw_expires := None;
              Grant.kw_redirect_uri := Some "http://app/cb"; Grant.kw_scope := Some 2 |}
           Sample.world).
  reflexivity.
Defined.

(** ** AccessToken.save *)




(** ** Time arithmetic *)

Lemma make_normalised (d s us : Z) : timedelta.normalised (timedelta.make d s us).
Proof.
  unfold timedelta.normalised, timedelta.make. cbn.
  split; apply Z.mod_pos_bound; lia.
Qed.

Lemma make_total_us (d s us : Z) :
  timedelta.total_us (timedelta.make d s us) = (d * 86400 + s) * 1000000 + us.
Proof.
  unfold timedelta.total_us, timedelta.make. cbn.
  pose proof (Z.div_mod us 1000000).
  pose proof (Z.div_mod (s + us `div` 1000000) 86400).
  lia.
Qed.

(** For a normalised timedelta, [days*86400 + seconds] is the floor of
    its length in seconds. *)
Lemma whole_seconds_floor (td : timedelta.t) :
  timedelta.normalised td →
  timedelta.days td * 86400 + timedelta.seconds td
  = timedelta.total_us td `div` 1000000.
Proof.
  intros [_ Hus]. unfold timedelta.total_us.
  apply Z.div_unique with (r := timedelta.microseconds td); lia.
Qed.

Lemma timedelta_eqb_total (a b : timedelta.t) :
  timedelta.eqb a b = true → timedelta.total_us a = timedelta.total_us b.
Proof.
  unfold timedelta.eqb, timedelta.total_us.
  rewrite !andb_true_iff, !Z.eqb_eq. intros [[-> ->] ->]. reflexivity.
Qed.

Lemma total_us_zero : timedelta.total_us timedelta.zero = 0.
Proof. reflexivity. Qed.

(** The timedelta that [self - other] returns is normalised; it is as
    long as the wall-clock difference under one tzinfo object, and as the
    distance between the two instants otherwise. *)
Lemma datetime_sub_exact (a b : datetime.t) (diff : timedelta.t) :
  datetime.sub a b = Ok diff →
  timedelta.normalised diff
  ∧ timedelta.total_us diff
    = if datetime.same_tzinfo a b
      then datetime.wall_us a - datetime.wall_us b
      else datetime.utc_us a - datetime.utc_us b.
Proof.
  unfold datetime.sub, datetime.utc_us.
  destruct (datetime.same_tzinfo a b).
  - intros [= <-]. split; [apply make_normalised|].
    rewrite make_total_us. unfold datetime.wall_us. lia.
  - destruct (datetime.utcoffset a) as [myoff|], (datetime.utcoffset b) as [otoff|];
      try discriminate.
    destruct (timedelta.eqb myoff otoff) eqn:E; intros [= <-].
    + split; [apply make_normalised|].
      apply timedelta_eqb_total in E.
      rewrite make_total_us. unfold datetime.wall_us. lia.
    + split; [apply make_normalised|].
      unfold timedelta.sub, timedelta.add. rewrite make_total_us.
      pose proof (make_total_us (datetime.ordinal a - datetime.ordinal b)
                    (datetime.second a - datetime.second b)
                    (datetime.microsecond a - datetime.microsecond b)) as Hbase.
      set (base := timedelta.make _ _ _) in *.
      generalize (make_total_us (timedelta.days base + timedelta.days otoff)
                    (timedelta.seconds base + timedelta.seconds otoff)
                    (timedelta.microseconds base + timedelta.microseconds otoff)).
      set (sum := timedelta.make _ _ _). intros Hsum.
      unfold timedelta.total_us in *. unfold datetime.wall_us. lia.
Qed.

(** Under two different tzinfo objects, or when both values report the
    same offset (two naive values report none), that length is the
    distance between the two instants. *)
Lemma datetime_sub_instants (a b : datetime.t) (diff : timedelta.t) :
  datetime.sub a b = Ok diff →
  datetime.same_tzinfo a b = false ∨ datetime.utcoffset a = datetime.utcoffset b →
  timedelta.total_us diff = datetime.utc_us a - datetime.utc_us b.
Proof.
  intros Hsub Hzone. destruct (datetime_sub_exact _ _ _ Hsub) as [_ ->].
  destruct (datetime.same_tzinfo a b); [|reflexivity].
  destruct Hzone as [|Hoff]; [discriminate|].
  unfold datetime.utc_us. rewrite Hoff.
  destruct (datetime.utcoffset b); lia.
Qed.

Lemma datetime_sub_defined (a b : datetime.t) :
  django_timezone.aware a = django_timezone.aware b →
  ∃ diff, datetime.sub a b = Ok diff.
Proof.
  unfold django_timezone.aware, datetime.sub, datetime.same_tzinfo, datetime.utcoffset.
  destruct (datetime.tz a) as [[|n f]|], (datetime.tz b) as [[|m g]|]; cbn;
    try discriminate; intros _; eauto;
    repeat match goal with |- context [if ?c then _ else _] => destruct c end; eauto.
Qed.

(** The same reading stamped UTC denotes the instant the naive reading
    denotes when taken to be UTC. *)
Lemma utc_us_stamped (d : datetime.t) :
  django_timezone.aware d = false →
  datetime.utc_us (datetime.replace_tzinfo d (Some UTC)) = datetime.utc_us d
  ∧ datetime.wall_us (datetime.replace_tzinfo d (Some UTC)) = datetime.utc_us d.
Proof.
  unfold django_timezone.aware, datetime.utc_us. intros H.
  destruct (datetime.utcoffset d) eqn:E; [discriminate|].
  cbn. unfold datetime.wall_us. cbn. rewrite total_us_zero. lia.
Qed.

Lemma to_utc_wall_us (a b : datetime.t) :
  datetime.wall_us (datetime.to_utc a) - datetime.wall_us (datetime.to_utc b)
  = datetime.utc_us a - datetime.utc_us b.
Proof.
  unfold datetime.wall_us, datetime.to_utc.
  cbn [datetime.ordinal datetime.second datetime.microsecond].
  pose proof (make_total_us 0 0 (datetime.utc_us a)) as Ha.
  pose proof (make_total_us 0 0 (datetime.utc_us b)) as Hb.
  unfold timedelta.total_us in Ha, Hb. lia.
Qed.

(** ** AccessToken.get_expire_delta *)

Lemma align_same_kind (P : Provider) (e r : datetime.t) :
  django_timezone.aware e = django_timezone.aware r →
  AccessToken.align P (Some e) r = Ok (Some e, r).
Proof.
  intros H. unfold AccessToken.align, AccessToken.and_then,
    django_timezone.is_aware, django_timezone.is_naive.
  destruct (timezone P); [|reflexivity]. cbn. rewrite H.
  by destruct (django_timezone.aware r).
Qed.

Lemma align_mixed (P : Provider) (e r : datetime.t) :
  timezone P = true →
  timezone_utc P = true →
  django_timezone.aware e ≠ django_timezone.aware r →
  AccessToken.align P (Some e) r
  = Ok (if django_timezone.aware r
        then (Some (datetime.replace_tzinfo e (Some UTC)), r)
        else (Some e, datetime.replace_tzinfo r (Some UTC))).
Proof.
  intros Htz Hutc H. unfold AccessToken.align, AccessToken.and_then,
    django_timezone.is_aware, django_timezone.is_naive,
    django_timezone.make_aware, django_timezone.utc.
  rewrite Htz, Hutc. cbn.
  destruct (django_timezone.aware r) eqn:Er, (django_timezone.aware e) eqn:Ee;
    cbn; congruence.
Qed.

Lemma get_expire_delta_eval (P : Provider) (self : AccessToken.t)
    (reference : option datetime.t) (w : World)
    (e' r' : datetime.t) (diff : timedelta.t) :
  AccessToken.align P (oauth2_accesstoken.expires self)
    (default (clock w) reference) = Ok (Some e', r') →
  datetime.sub e' r' = Ok diff →
  AccessToken.get_expire_delta P self reference w
  = (Ok (timedelta.total_us diff `div` 1000000), w).
Proof.
  intros Halign Hsub. unfold AccessToken.get_expire_delta.
  destruct (datetime_sub_exact _ _ _ Hsub) as [Hnorm _].
  rewrite <- (whole_seconds_floor _ Hnorm).
  destruct reference as [r|]; cbn in Halign;
    unfold mbind, M_bind, mret, M_ret, utils.now, lift;
    rewrite Halign; cbn; rewrite Hsub; reflexivity.
Qed.

Lemma stamped_sub_l (e r : datetime.t) (diff : timedelta.t) :
  django_timezone.aware e = false →
  datetime.sub (datetime.replace_tzinfo e (Some UTC)) r = Ok diff →
  timedelta.total_us diff = datetime.utc_us e - datetime.utc_us r.
Proof.
  intros He Hsub. destruct (utc_us_stamped e He) as [Hu Hw].
  destruct (datetime_sub_exact _ _ _ Hsub) as [_ ->]. rewrite Hu, Hw.
  destruct (datetime.same_tzinfo _ r) eqn:E; [|reflexivity].
  unfold datetime.same_tzinfo in E. cbn in E.
  assert (datetime.utc_us r = datetime.wall_us r) as ->; [|reflexivity].
  unfold datetime.utc_us, datetime.utcoffset.
  destruct (datetime.tz r) as [[|n f]|]; try discriminate.
  rewrite total_us_zero. lia.
Qed.

Lemma stamped_sub_r (e r : datetime.t) (diff : timedelta.t) :
  django_timezone.aware r = false →
  datetime.sub e (datetime.replace_tzinfo r (Some UTC)) = Ok diff →
  timedelta.total_us diff = datetime.utc_us e - datetime.utc_us r.
Proof.
  intros Hr Hsub. destruct (utc_us_stamped r Hr) as [Hu Hw].
  destruct (datetime_sub_exact _ _ _ Hsub) as [_ ->]. rewrite Hu, Hw.
  destruct (datetime.same_tzinfo e _) eqn:E; [|reflexivity].
  unfold datetime.same_tzinfo in E. cbn in E.
  assert (datetime.utc_us e = datetime.wall_us e) as ->; [|reflexivity].
  unfold datetime.utc_us, datetime.utcoffset.
  destruct (datetime.tz e) as [[|n f]|]; try discriminate.
  rewrite total_us_zero. lia.
Qed.

Lemma mixed_not_same_tzinfo (e r : datetime.t) :
  django_timezone.aware e ≠ django_timezone.aware r →
  datetime.same_tzinfo e r = false.
Proof.
  unfold django_timezone.aware, datetime.same_tzinfo, datetime.utcoffset.
  destruct (datetime.tz e) as [[|n f]|], (datetime.tz r) as [[|m g]|];
    cbn; congruence.
Qed.

(** The delta for two timestamps of the same kind: the floor of the
    length of [expires - reference]. *)
Lemma expire_delta_same_kind (P : Provider) (self : AccessToken.t)
    (reference : option datetime.t) (w : World) (e : datetime.t) :
  oauth2_accesstoken.expires self = Some e →
  django_timezone.aware e = django_timezone.aware (default (clock w) reference) →
  ∃ diff,
    datetime.sub e (default (clock w) reference) = Ok diff
    ∧ AccessToken.get_expire_delta P self reference w
      = (Ok (timedelta.total_us diff `div` 1000000), w).
Proof.
  intros He Hsame. set (r := default (clock w) reference) in *.
  destruct (datetime_sub_defined e r Hsame) as [diff Hsub].
  exists diff. split; [exact Hsub|].
  apply get_expire_delta_eval with (e' := e) (r' := r); [|exact Hsub].
  rewrite He. by apply align_same_kind.
Qed.

(** The delta for an aware and a naive timestamp, where
    [django.utils.timezone] and its [utc] are at hand. *)
Lemma expire_delta_mixed (P : Provider) (self : AccessToken.t)
    (e r : datetime.t) (w : World) :
  timezone P = true →
  timezone_utc P = true →
  oauth2_accesstoken.expires self = Some e →
  django_timezone.aware e ≠ django_timezone.aware r →
  AccessToken.get_expire_delta P self (Some r) w
  = (Ok ((datetime.utc_us e - datetime.utc_us r) `div` 1000000), w).
Proof.
  intros Htz Hutc He Hmixed.
  pose proof (align_mixed P e r Htz Hutc Hmixed) as Halign.
  destruct (django_timezone.aware r) eqn:Er.
  - assert (Ee : django_timezone.aware e = false)
      by (destruct (django_timezone.aware e); congruence).
    destruct (datetime_sub_defined (datetime.replace_tzinfo e (Some UTC)) r) as [diff Hsub].
    { by rewrite Er. }
    rewrite <- (stamped_sub_l e r diff Ee Hsub).
    eapply get_expire_delta_eval; [|exact Hsub]. rewrite He. exact Halign.
  - assert (Ee : django_timezone.aware e = true)
      by (destruct (django_timezone.aware e); congruence).
    destruct (datetime_sub_defined e (datetime.replace_tzinfo r (Some UTC))) as [diff Hsub].
    { by rewrite Ee. }
    rewrite <- (stamped_sub_r e r diff Er Hsub).
    eapply get_expire_delta_eval; [|exact Hsub]. rewrite He. exact Halign.
Qed.

(** C2 (as amended): for an AccessToken with an expiry and a reference
    time of the same kind (both aware or both naive; without a reference
    the clock is read), [get_expire_delta] returns the difference expires
    minus reference, as the datetime subtraction computes it, in whole
    seconds rounded toward negative infinity.  That difference is the
    distance between the two instants when the two values carry
    different tzinfo objects or report the same offset. *)
Theorem get_expire_delta_floor (P : Provider) (self : AccessToken.t)
    (reference : option datetime.t) (w : World) (e : datetime.t)
    (Hexpires : oauth2_accesstoken.expires self = Some e)
    (Hkind : django_timezone.aware e
             = django_timezone.aware (default (clock w) reference)) :
  ∃ (diff : timedelta.t) (seconds : Z),
    datetime.sub e (default (clock w) reference) = Ok diff
    ∧ AccessToken.get_expire_delta P self reference w = (Ok seconds, w)
    ∧ seconds * 1000000 ≤ timedelta.total_us diff < (seconds + 1) * 1000000
    ∧ (datetime.same_tzinfo e (default (clock w) reference) = false
       ∨ datetime.utcoffset e = datetime.utcoffset (default (clock w) reference)
       → timedelta.total_us diff
         = datetime.utc_us e - datetime.utc_us (default (clock w) reference)).
Proof.
  destruct (expire_delta_same_kind P self reference w e Hexpires Hkind)
    as (diff & Hsub & Hdelta).
  exists diff, (timedelta.total_us diff `div` 1000000).
  split; [exact Hsub|]. split; [exact Hdelta|]. split.
  - pose proof (Z.div_mod (timedelta.total_us diff) 1000000).
    pose proof (Z.mod_pos_bound (timedelta.total_us diff) 1000000). lia.
  - by apply datetime_sub_instants.
Qed.

Lemma get_expire_delta_floor_witness :
  let e := Sample.at_ 738000 3610 700000 (Some UTC) in
  ∃ (diff : timedelta.t) (seconds : Z),
    datetime.sub e (default (clock Sample.world) (Some Sample.t0)) = Ok diff
    ∧ AccessToken.get_expire_delta (Sample.provider false) (Sample.token (Some e))
        (Some Sample.t0) Sample.world = (Ok seconds, Sample.world)
    ∧ seconds * 1000000 ≤ timedelta.total_us diff < (seconds + 1) * 1000000
    ∧ (datetime.same_tzinfo e (default (clock Sample.world) (Some Sample.t0)) = false
       ∨ datetime.utcoffset e
         = datetime.utcoffset (default (clock Sample.world) (Some Sample.t0))
       → timedelta.total_us diff
         = datetime.utc_us e
           - datetime.utc_us (default (clock Sample.world) (Some Sample.t0))).
Proof.
  cbv zeta.
  apply (get_expire_delta_floor (Sample.provider false)
           (Sample.token (Some (Sample.at_ 738000 3610 700000 (Some UTC))))
           (Some Sample.t0) Sample.world (Sample.at_ 738000 3610 700000 (Some UTC)));
    reflexivity.
Defined.

(** C2 (as stated) fails: a token that expired 1.5 seconds before the
    reference yields -2, whereas truncation toward zero gives -1. *)
Lemma get_expire_delta_truncation_counterexample :
  let e := Sample.at_ 738000 3598 500000 (Some UTC) in
  datetime.utc_us e - datetime.utc_us Sample.t0 = -1500000
  ∧ AccessToken.get_expire_delta (Sample.provider true) (Sample.token (Some e))
      (Some Sample.t0) Sample.world = (Ok (-2), Sample.world)
  ∧ AccessToken.get_expire_delta (Sample.provider true) (Sample.token (Some e))
      (Some Sample.t0) Sample.world
    ≠ (Ok ((datetime.utc_us e - datetime.utc_us Sample.t0) `quot` 1000000),
       Sample.world).
Proof. cbv zeta. split; [reflexivity|]. split; [reflexivity|]. discriminate. Qed.

(** Ten seconds and seven tenths ahead gives 10 under either rounding. *)
Example get_expire_delta_ahead :
  AccessToken.get_expire_delta (Sample.provider true)
    (Sample.token (Some (Sample.at_ 738000 3610 700000 (Some UTC))))
    (Some Sample.t0) Sample.world = (Ok 10, Sample.world).
Proof. reflexivity. Qed.

(** C3 (as amended): where [django.utils.timezone] is imported and has
    [utc], a call that mixes an aware and a naive timestamp does not
    raise; the result is the floor of the distance between the two
    instants with the naive one read as UTC, and it is what the call
    returns once both timestamps are converted to UTC. *)
Theorem get_expire_delta_mixed (P : Provider) (self : AccessToken.t)
    (e r : datetime.t) (w : World)
    (Htimezone : timezone P = true)
    (Hutc : timezone_utc P = true)
    (Hexpires : oauth2_accesstoken.expires self = Some e)
    (Hmixed : django_timezone.aware e ≠ django_timezone.aware r) :
  AccessToken.get_expire_delta P self (Some r) w
  = (Ok ((datetime.utc_us e - datetime.utc_us r) `div` 1000000), w)
  ∧ AccessToken.get_expire_delta P
      (AccessToken.set_expires (Some (datetime.to_utc e)) self)
      (Some (datetime.to_utc r)) w
    = AccessToken.get_expire_delta P self (Some r) w.
Proof.
  pose proof (expire_delta_mixed P self e r w Htimezone Hutc Hexpires Hmixed) as Hdirect.
  split; [exact Hdirect|]. rewrite Hdirect.
  destruct (expire_delta_same_kind P
              (AccessToken.set_expires (Some (datetime.to_utc e)) self)
              (Some (datetime.to_utc r)) w (datetime.to_utc e) eq_refl eq_refl)
    as (diff & Hsub & ->).
  destruct (datetime_sub_exact _ _ _ Hsub) as [_ ->].
  change (default (clock w) (Some (datetime.to_utc r))) with (datetime.to_utc r).
  change (datetime.same_tzinfo (datetime.to_utc e) (datetime.to_utc r)) with true.
  cbv iota. by rewrite to_utc_wall_us.
Qed.

Lemma get_expire_delta_mixed_witness :
  let e := Sample.at_ 738000 3598 500000 None in
  let r := Sample.at_ 738000 10800 0 (Some Sample.cest) in
  AccessToken.get_expire_delta (Sample.provider true) (Sample.token (Some e))
    (Some r) Sample.world
  = (Ok ((datetime.utc_us e - datetime.utc_us r) `div` 1000000), Sample.world)
  ∧ AccessToken.get_expire_delta (Sample.provider true)
      (AccessToken.set_expires (Some (datetime.to_utc e)) (Sample.token (Some e)))
      (Some (datetime.to_utc r)) Sample.world
    = AccessToken.get_expire_delta (Sample.provider true) (Sample.token (Some e))
        (Some r) Sample.world.
Proof.
  apply (get_expire_delta_mixed (Sample.provider true));
    [reflexivity | reflexivity | reflexivity |].
  vm_compute. discriminate.
Defined.

(** C3 (as stated) fails: with an aware reference and a naive expiry the
    call raises [TypeError] where the guarded import left
    [timezone = None], and [AttributeError] where the imported module has
    no [utc]. *)
Lemma get_expire_delta_mixed_counterexample :
  let e := Sample.at_ 738000 3598 500000 None in
  let r := Sample.at_ 738000 10800 0 (Some Sample.cest) in
  django_timezone.aware e = false
  ∧ django_timezone.aware r = true
  ∧ AccessToken.get_expire_delta (Sample.provider false) (Sample.token (Some e))
      (Some r) Sample.world = (Raise TypeError, Sample.world)
  ∧ AccessToken.get_expire_delta Sample.provider_without_utc (Sample.token (Some e))
      (Some r) Sample.world = (Raise AttributeError, Sample.world).
Proof. cbv zeta. repeat split; reflexivity. Qed.

(** X17: where the guarded import fell back to [timezone = None], the
    same mixed call is left to [datetime.__sub__], which raises. *)
Lemma get_expire_delta_mixed_without_timezone (P : Provider) (self : AccessToken.t)
    (e r : datetime.t) (w : World) :
  timezone P = false →
  oauth2_accesstoken.expires self = Some e →
  django_timezone.aware e ≠ django_timezone.aware r →
  AccessToken.get_expire_delta P self (Some r) w = (Raise TypeError, w).
Proof.
  intros Htz He Hmixed.
  assert (Hsub : datetime.sub e r = Raise TypeError).
  { unfold datetime.sub. rewrite (mixed_not_same_tzinfo e r Hmixed).
    unfold django_timezone.aware in Hmixed.
    by destruct (datetime.utcoffset e), (datetime.utcoffset r). }
  unfold AccessToken.get_expire_delta, AccessToken.align, AccessToken.minus.
  rewrite Htz, He. unfold mbind, M_bind, mret, M_ret, lift.
  by rewrite Hsub.
Qed.

(** ** Client.serialize and Client.deserialize *)

(** X1: empty input ([None], an empty dict, an empty string, ...) gives
    [None]; nothing is raised and the world is left as it is. *)
Lemma deserialize_empty (P : Provider) (data : pyval) (w : World) :
  truthy data = false → Client.deserialize P data w = (Ok None, w).
Proof. intros H. unfold Client.deserialize. by rewrite H. Qed.

(** The keyword dict that the loop of [deserialize] builds from a dict
    with the seven keys [serialize] writes: only the user entry can be
    transformed, and only when it is true. *)
Lemma deserialize_loop_serialized (P : Provider)
    (v_user v_name v_url v_redirect_uri v_client_id v_client_secret v_client_type : pyval) :
  Client.deserialize_loop P
    (PyDict [ ("user", v_user); ("name", v_name); ("url", v_url);
              ("redirect_uri", v_redirect_uri); ("client_id", v_client_id);
              ("client_secret", v_client_secret); ("client_type", v_client_type) ])
    [] Client.fields
  = (v ← (if truthy v_user
          then u ← deserialize_instance P v_user; Ok (PyUser u)
          else Ok v_user);
     Ok [ ("id", PyNone); ("user", v); ("name", v_name); ("url", v_url);
          ("redirect_uri", v_redirect_uri); ("client_id", v_client_id);
          ("client_secret", v_client_secret); ("client_type", v_client_type) ]).
Proof.
  unfold Client.deserialize_loop, Client.deserialize_field, Client.fields.
  cbn. rewrite !andb_false_r, andb_true_r.
  destruct (truthy v_user); cbn.
  - destruct (deserialize_instance P v_user); reflexivity.
  - reflexivity.
Qed.

(** A client that has an owning user survives the round trip, provided
    the two helpers of provider/utils.py do not fail on that user and the
    serialized user is not empty. *)
Lemma deserialize_serialize_with_user (P : Provider) (c : Client.t) (w : World)
    (u u' : User.t) (j : pyval) :
  oauth2_client.user c = Some u →
  serialize_instance P u = Ok j →
  truthy j = true →
  deserialize_instance P j = Ok u' →
  ∃ data c',
    Client.serialize P c = Ok data
    ∧ Client.deserialize P data w = (Ok (Some c'), w)
    ∧ oauth2_client.client_id c' = oauth2_client.client_id c
    ∧ oauth2_client.redirect_uri c' = oauth2_client.redirect_uri c
    ∧ oauth2_client.client_type c' = oauth2_client.client_type c
    ∧ oauth2_client.user c' = Some u'.
Proof.
  intros Hu Hser Htruthy Hdeser. unfold Client.serialize. rewrite Hu, Hser.
  eexists _, _. split; [reflexivity|].
  unfold Client.deserialize. cbn [truthy negb].
  rewrite deserialize_loop_serialized, Htruthy, Hdeser.
  repeat split; reflexivity.
Qed.

(** C4, on a client without an owning user: [serialize] writes the empty
    string for the user, [deserialize] hands that string to the
    constructor as the [user] keyword, and the constructor raises
    [ValueError]; no Client is reconstructed. *)
Theorem deserialize_serialize_without_user (P : Provider) (c : Client.t) (w : World)
    (Huser : oauth2_client.user c = None) :
  ∃ data,
    Client.serialize P c = Ok data
    ∧ py_get data "user" = Ok (PyStr EmptyString)
    ∧ Client.deserialize P data w = (Raise ValueError, w).
Proof.
  unfold Client.serialize. rewrite Huser.
  eexists. split; [reflexivity|]. split; [reflexivity|].
  unfold Client.deserialize. cbn [truthy negb].
  rewrite deserialize_loop_serialized. reflexivity.
Qed.

Lemma deserialize_serialize_without_user_witness :
  ∃ data,
    Client.serialize (Sample.provider true) (Sample.app None 1) = Ok data
    ∧ py_get data "user" = Ok (PyStr EmptyString)
    ∧ Client.deserialize (Sample.provider true) data Sample.world
      = (Raise ValueError, Sample.world).
Proof.
  apply (deserialize_serialize_without_user (Sample.provider true) (Sample.app None 1)).
  reflexivity.
Defined.

Example deserialize_serialize_owned :
  ∃ data c',
    Client.serialize (Sample.provider true) (Sample.app (Some Sample.alice) 0) = Ok data
    ∧ Client.deserialize (Sample.provider true) data Sample.world
      = (Ok (Some c'), Sample.world)
    ∧ oauth2_client.client_id c' = PyStr "cid"
    ∧ oauth2_client.redirect_uri c' = PyStr "http://app/cb"
    ∧ oauth2_client.client_type c' = PyInt 0.
Proof. eexists _, _. repeat split; reflexivity. Qed.

(** ** The grant life cycle *)

Lemma bind_ok {A B} (m : M A) (k : A → M B) (w w' : World) (a : A) :
  m w = (Ok a, w') → (m ≫= k) w = k a w'.
Proof. intros H. unfold mbind, M_bind. by rewrite H. Qed.

Lemma get_by_code_created (code : string) (table : gmap Z Grant.t)
    (pk : Z) (g : Grant.t) :
  GrantLifecycle.with_code code table = ∅ →
  oauth2_grant.code g = code →
  GrantLifecycle.get_by_code code (<[pk := g]> table) = Some (pk, g).
Proof.
  intros Hfree Hcode. unfold GrantLifecycle.get_by_code, GrantLifecycle.with_code in *.
  rewrite map_filter_insert_True by done.
  rewrite Hfree, insert_empty, map_to_list_singleton. reflexivity.
Qed.

Lemma with_code_deleted (code : string) (table : gmap Z Grant.t)
    (pk : Z) (g : Grant.t) :
  GrantLifecycle.with_code code table = ∅ →
  GrantLifecycle.with_code code (delete pk (<[pk := g]> table)) = ∅.
Proof.
  intros Hfree. unfold GrantLifecycle.with_code in *.
  rewrite map_filter_delete.
  destruct (decide (oauth2_grant.code g = code)).
  - rewrite map_filter_insert_True by done.
    rewrite Hfree, insert_empty. apply delete_singleton_eq.
  - rewrite map_filter_insert_False by done.
    rewrite map_filter_delete, Hfree. by rewrite !delete_empty.
Qed.

(** What a successful [issue] has done: one token drawn for the code, a
    code no stored grant had, and the grant stored under a primary key. *)
Lemma issue_inv (P : Provider) (user : User.t) (client : Client.t)
    (redirect_uri : string) (scope : Z) (w w1 : World) (g : Grant.t) :
  GrantLifecycle.issue P user client redirect_uri scope w = (Ok g, w1) →
  ∃ pk,
    w1 = set_grants (<[pk := g]> (grants w)) (set_drawn (S (drawn w)) w)
    ∧ GrantLifecycle.with_code (oauth2_grant.code g) (grants w) = ∅
    ∧ oauth2_grant.user g = user
    ∧ oauth2_grant.scope g = scope
    ∧ oauth2_grant.redirect_uri g = redirect_uri
    ∧ datetime.add (clock w) (EXPIRE_CODE_DELTA P) = Ok (oauth2_grant.expires g).
Proof.
  unfold GrantLifecycle.issue, Grant.init. cbn.
  unfold mbind, M_bind at 1. unfold mbind, M_bind at 1. cbn.
  unfold utils.get_code_expiry, utils.now, lift, mbind, M_bind. cbn.
  destruct (datetime.add (clock w) (EXPIRE_CODE_DELTA P)) as [e|err]; [|discriminate].
  cbn. unfold GrantLifecycle.create_grant. cbn.
  destruct (decide _) as [Hfree|]; [|discriminate].
  intros [= <- <-]. eexists. repeat split. exact Hfree.
Qed.

(** The expiry policy only reads the clock. *)
Lemma policy_reads_clock (P : Provider) (client : Client.t) (w w' : World)
    (e : datetime.t) :
  clock w' = clock w →
  Client.get_default_token_expiry P client w = (Ok e, w) →
  Client.get_default_token_expiry P client w' = (Ok e, w').
Proof.
  intros Hclock. unfold Client.get_default_token_expiry, utils.get_token_expiry,
    utils.now, lift, mbind, M_bind. rewrite Hclock.
  destruct (datetime.add _ _); intros [= ->]; reflexivity.
Qed.

(** The token pair is created when the next two tokens of the generator
    are not in use and the client's expiry policy yields a timestamp. *)
Lemma mint_succeeds (P : Provider) (user : User.t) (client : Client.t) (scope : Z)
    (w : World) (e : datetime.t) :
  GrantLifecycle.with_access_token (long_tokens w (drawn w)) (accesstokens w) = ∅ →
  GrantLifecycle.with_refresh_token (long_tokens w (S (drawn w))) (refreshtokens w) = ∅ →
  Client.get_default_token_expiry P client w = (Ok e, w) →
  ∃ tok r w',
    GrantLifecycle.mint P user client scope w = (Ok (tok, r), w')
    ∧ grants w' = grants w
    ∧ oauth2_accesstoken.user tok = user
    ∧ oauth2_accesstoken.scope tok = scope
    ∧ oauth2_accesstoken.expires tok = Some e.
Proof.
  intros Hat Hrt Hpolicy.
  pose proof (policy_reads_clock P client w (set_drawn (S (drawn w)) w) e eq_refl Hpolicy)
    as Hpolicy'.
  unfold GrantLifecycle.mint.
  erewrite bind_ok; [|reflexivity].
  erewrite bind_ok.
  2:{ unfold GrantLifecycle.create_access_token. cbn.
      rewrite decide_True by exact Hat.
      unfold AccessToken.save. cbn.
      erewrite bind_ok; [|erewrite bind_ok; [|exact Hpolicy']; reflexivity].
      reflexivity. }
  erewrite bind_ok; [|reflexivity].
  erewrite bind_ok.
  2:{ unfold GrantLifecycle.create_refresh_token. cbn.
      rewrite decide_True by exact Hrt. reflexivity. }
  eexists _, _, _. repeat split; reflexivity.
Qed.

Lemma exchange_unknown_code (P : Provider) (code : string) (client : Client.t)
    (redirect_uri : string) (w : World) :
  GrantLifecycle.with_code code (grants w) = ∅ →
  GrantLifecycle.exchange P code client redirect_uri w = (Raise InvalidGrant, w).
Proof.
  intros H. unfold GrantLifecycle.exchange, GrantLifecycle.atomically,
    GrantLifecycle.get_by_code.
  by rewrite H, map_to_list_empty.
Qed.

(** Under one tzinfo object the order of two actual datetimes is the
    order of their wall-clock readings. *)
Lemma lex_wall_us (a b : datetime.t) :
  datetime.wf a → datetime.wf b →
  datetime.lex a b = (datetime.wall_us a ?= datetime.wall_us b).
Proof.
  intros [Ha1 Ha2] [Hb1 Hb2]. unfold datetime.lex, datetime.wall_us. symmetry.
  destruct (Z.compare_spec (datetime.ordinal a) (datetime.ordinal b)) as [Ho|Ho|Ho].
  - destruct (Z.compare_spec (datetime.second a) (datetime.second b)) as [Hs|Hs|Hs].
    + destruct (Z.compare_spec (datetime.microsecond a) (datetime.microsecond b));
        [apply Z.compare_eq_iff | apply Z.compare_lt_iff | apply Z.compare_gt_iff]; lia.
    + apply Z.compare_lt_iff. lia.
    + apply Z.compare_gt_iff. lia.
  - apply Z.compare_lt_iff. lia.
  - apply Z.compare_gt_iff. lia.
Qed.

(** What [now + lifetime] is when it is in range. *)
Lemma datetime_add_inv (now e : datetime.t) (lifetime : timedelta.t) :
  datetime.add now lifetime = Ok e →
  datetime.tz e = datetime.tz now
  ∧ datetime.wf e
  ∧ datetime.wall_us e = datetime.wall_us now + timedelta.total_us lifetime.
Proof.
  unfold datetime.add. cbv zeta.
  pose proof (make_normalised (datetime.ordinal now + timedelta.days lifetime)
                (datetime.second now + timedelta.seconds lifetime)
                (datetime.microsecond now + timedelta.microseconds lifetime)) as Hn.
  pose proof (make_total_us (datetime.ordinal now + timedelta.days lifetime)
                (datetime.second now + timedelta.seconds lifetime)
                (datetime.microsecond now + timedelta.microseconds lifetime)) as Ht.
  revert Hn Ht. generalize (timedelta.make
                (datetime.ordinal now + timedelta.days lifetime)
                (datetime.second now + timedelta.seconds lifetime)
                (datetime.microsecond now + timedelta.microseconds lifetime)).
  intros r Hn Ht. destruct (_ && _); [|discriminate]. intros [= <-].
  split; [reflexivity|]. split; [exact Hn|].
  unfold datetime.wall_us, timedelta.total_us in *. cbn. lia.
Qed.

(** A timestamp is not yet reached at the moment it is computed as the
    clock reading plus a positive lifetime. *)
Lemma not_expired_at_once (now e : datetime.t) (lifetime : timedelta.t) :
  datetime.wf now →
  0 < timedelta.total_us lifetime →
  datetime.add now lifetime = Ok e →
  datetime.ge now e = Ok false.
Proof.
  intros Hwf Hpos Hadd.
  destruct (datetime_add_inv _ _ _ Hadd) as (Htz & Hwfe & Hwall).
  assert (Hsame : datetime.same_tzinfo now e = true).
  { unfold datetime.same_tzinfo. rewrite Htz.
    destruct (datetime.tz now) as [[|n f]|]; cbn; try reflexivity.
    apply String.eqb_refl. }
  unfold datetime.ge, datetime.cmp. rewrite Hsame. cbn.
  rewrite lex_wall_us by assumption.
  assert (Hlt : datetime.wall_us now < datetime.wall_us e) by lia.
  apply Z.compare_lt_iff in Hlt. by rewrite Hlt.
Qed.

(** With a positive code lifetime, a grant can be exchanged at the very
    moment it was issued. *)
Lemma issued_grant_not_expired (P : Provider) (user : User.t) (client : Client.t)
    (redirect_uri : string) (scope : Z) (w w1 : World) (g : Grant.t) :
  datetime.wf (clock w) →
  0 < timedelta.total_us (EXPIRE_CODE_DELTA P) →
  GrantLifecycle.issue P user client redirect_uri scope w = (Ok g, w1) →
  set_clock (clock w) w1 = w1
  ∧ datetime.ge (clock w) (oauth2_grant.expires g) = Ok false.
Proof.
  intros Hwf Hpos Hissue.
  destruct (issue_inv _ _ _ _ _ _ _ _ Hissue) as (pk & -> & _ & _ & _ & _ & Hadd).
  split; [reflexivity|]. by eapply not_expired_at_once.
Qed.

(** C6: once a grant has been issued, exchanging its code with the
    redirect URI it was issued for, at a time before it expires,
    succeeds (the generator's next two tokens being unused and the token
    expiry computable) and yields an access token for the grant's user
    and scope; from then on, at any time, another exchange of the same
    code fails with [InvalidGrant]. *)
Theorem grant_exchanged_exactly_once (P : Provider)
    (user : User.t) (client : Client.t) (redirect_uri : string) (scope : Z)
    (w w1 : World) (g : Grant.t) (t e : datetime.t)
    (Hissue : GrantLifecycle.issue P user client redirect_uri scope w = (Ok g, w1))
    (Hbefore : datetime.ge t (oauth2_grant.expires g) = Ok false)
    (Haccess : GrantLifecycle.with_access_token
                 (long_tokens w1 (drawn w1)) (accesstokens w1) = ∅)
    (Hrefresh : GrantLifecycle.with_refresh_token
                  (long_tokens w1 (S (drawn w1))) (refreshtokens w1) = ∅)
    (Hpolicy : Client.get_default_token_expiry P client (set_clock t w1)
               = (Ok e, set_clock t w1)) :
  ∃ tok w2,
    GrantLifecycle.exchange P (oauth2_grant.code g) client redirect_uri (set_clock t w1)
    = (Ok tok, w2)
    ∧ oauth2_accesstoken.user tok = user
    ∧ oauth2_accesstoken.scope tok = scope
    ∧ oauth2_accesstoken.expires tok = Some e
    ∧ ∀ t', GrantLifecycle.exchange P (oauth2_grant.code g) client redirect_uri
              (set_clock t' w2)
            = (Raise InvalidGrant, set_clock t' w2).
Proof.
  destruct (issue_inv _ _ _ _ _ _ _ _ Hissue)
    as (pk & Hw1 & Hfree & Huser & Hscope & Huri & _).
  destruct (mint_succeeds P user client scope (set_clock t w1) e Haccess Hrefresh Hpolicy)
    as (tok & r & w' & Hmint & Hgrants & Htokuser & Htokscope & Hexp).
  assert (Hstored : grants (set_clock t w1) = <[pk := g]> (grants w)) by (by subst w1).
  exists tok, (set_grants (delete pk (grants w')) w').
  split; [|split; [exact Htokuser|split; [exact Htokscope|split; [exact Hexp|]]]].
  - unfold GrantLifecycle.exchange, GrantLifecycle.atomically. rewrite Hstored.
    rewrite (get_by_code_created _ _ pk g Hfree eq_refl).
    rewrite Huri, String.eqb_refl. cbn [negb clock set_clock].
    rewrite Hbefore, Huser, Hscope, Hmint. reflexivity.
  - intros t'. apply exchange_unknown_code. cbn.
    rewrite Hgrants, Hstored. by apply with_code_deleted.
Qed.

Lemma grant_exchanged_exactly_once_witness :
  let P := Sample.provider true in
  let client := Sample.app (Some Sample.alice) 1 in
  let t := Sample.at_ 738000 3610 0 (Some UTC) in
  ∃ tok w2,
    GrantLifecycle.exchange P "L0" client "http://app/cb"
      (set_clock t Sample.world_after_issue) = (Ok tok, w2)
    ∧ oauth2_accesstoken.user tok = Sample.alice
    ∧ oauth2_accesstoken.scope tok = 2
    ∧ oauth2_accesstoken.expires tok = Some (Sample.at_ 738030 3610 0 (Some UTC))
    ∧ ∀ t', GrantLifecycle.exchange P "L0" client "http://app/cb" (set_clock t' w2)
            = (Raise InvalidGrant, set_clock t' w2).
Proof.
  cbv zeta.
  apply (grant_exchanged_exactly_once (Sample.provider true) Sample.alice
           (Sample.app (Some Sample.alice) 1) "http://app/cb" 2
           Sample.world Sample.world_after_issue Sample.grant
           (Sample.at_ 738000 3610 0 (Some UTC))
           (Sample.at_ 738030 3610 0 (Some UTC)));
    vm_compute; reflexivity.
Defined.

(** * Further properties *)

(** ** More on Client.deserialize *)

(** The keyword dict built from any dict: every field name gets the
    entry of the dict, [None] when the key is missing; only a true user
    entry is transformed. *)
Lemma deserialize_loop_dict (P : Provider) (d : dict) :
  Client.deserialize_loop P (PyDict d) [] Client.fields
  = (v ← (if truthy (dict_get d "user")
          then u ← deserialize_instance P (dict_get d "user"); Ok (PyUser u)
          else Ok (dict_get d "user"));
     Ok [ ("id", dict_get d "id"); ("user", v); ("name", dict_get d "name");
          ("url", dict_get d "url"); ("redirect_uri", dict_get d "redirect_uri");
          ("client_id", dict_get d "client_id");
          ("client_secret", dict_get d "client_secret");
          ("client_type", dict_get d "client_type") ]).
Proof.
  unfold Client.deserialize_loop, Client.deserialize_field, Client.fields.
  cbn. rewrite !andb_false_r, andb_true_r.
  destruct (truthy (dict_get d "user")); cbn.
  - destruct (deserialize_instance P (dict_get d "user")); reflexivity.
  - reflexivity.
Qed.

(** What [deserialize] does with a dict that is not empty. *)
Lemma deserialize_dict (P : Provider) (d : dict) (w : World) :
  d ≠ [] →
  Client.deserialize P (PyDict d) w
  = (v ← (if truthy (dict_get d "user")
          then u ← deserialize_instance P (dict_get d "user"); Ok (PyUser u)
          else Ok (dict_get d "user"));
     u ← Client.set_user v;
     Ok (Some (Client.from_entries d u)),
     w).
Proof.
  intros Hd. unfold Client.deserialize.
  assert (truthy (PyDict d) = true) as -> by (by destruct d).
  cbn [negb]. rewrite deserialize_loop_dict.
  destruct (truthy (dict_get d "user")).
  - destruct (deserialize_instance P (dict_get d "user")) as [u|e]; reflexivity.
  - cbn. destruct (dict_get d "user"); reflexivity.
Qed.

Lemma dict_get_missing (d : dict) (key : string) :
  dict_mem d key = false → dict_get d key = PyNone.
Proof.
  induction d as [|[k v] d IH]; cbn; [done|].
  destruct (String.eqb k key); cbn; [discriminate|exact IH].
Qed.

(** X2: input that is true but not a dict (a non-empty string, a
    number, [True], a model instance) has no [get]; [deserialize] raises
    [AttributeError] and changes nothing. *)
Theorem deserialize_not_a_dict (P : Provider) (data : pyval) (w : World)
    (Htrue : truthy data = true)
    (Hkind : ∀ items, data ≠ PyDict items) :
  Client.deserialize P data w = (Raise AttributeError, w).
Proof.
  unfold Client.deserialize. rewrite Htrue.
  destruct data as [|b|n|s|items|u]; try reflexivity.
  by destruct (Hkind items).
Qed.

(** X3: [deserialize] never changes the world, whatever it is given
    and whatever it returns: no token is drawn for a missing identifier
    or secret and nothing is stored. *)
Theorem deserialize_leaves_world (P : Provider) (data : pyval) (w : World) :
  (Client.deserialize P data w).2 = w.
Proof.
  destruct data as [|b|n|s|items|u].
  - reflexivity.
  - unfold Client.deserialize. by destruct b.
  - unfold Client.deserialize. cbn. by destruct (n =? 0).
  - unfold Client.deserialize. cbn. by destruct (String.eqb s EmptyString).
  - destruct items as [|item items]; [reflexivity|].
    by rewrite deserialize_dict.
  - reflexivity.
Qed.

(** X4: from a non-empty dict whose user entry is missing or [None],
    [deserialize] builds a Client without a user whose attributes are the
    dict's entries; an attribute whose key is missing is [None] (the
    field defaults are not applied). *)
Theorem deserialize_without_user (P : Provider) (d : dict) (w : World)
    (Hd : d ≠ [])
    (Huser : dict_get d "user" = PyNone) :
  Client.deserialize P (PyDict d) w = (Ok (Some (Client.from_entries d None)), w)
  ∧ (∀ key, dict_mem d key = false → dict_get d key = PyNone).
Proof.
  split; [|apply dict_get_missing].
  rewrite deserialize_dict by exact Hd. by rewrite Huser.
Qed.

(** X5: a user entry that is false without being [None] (an empty
    string, an empty dict, zero, [False]) is passed on as it is, and the
    constructor refuses it with [ValueError]. *)
Theorem deserialize_false_user_rejected (P : Provider) (d : dict) (w : World)
    (Hd : d ≠ [])
    (Hfalse : truthy (dict_get d "user") = false)
    (Hnot_none : dict_get d "user" ≠ PyNone) :
  Client.deserialize P (PyDict d) w = (Raise ValueError, w).
Proof.
  rewrite deserialize_dict by exact Hd. rewrite Hfalse. cbn.
  destruct (dict_get d "user"); try reflexivity; try done.
Qed.

(** X6: a true user entry is rehydrated with [deserialize_instance]:
    its result becomes the Client's user, and its exception, if it
    raises, is the exception of [deserialize]. *)
Theorem deserialize_rehydrates_user (P : Provider) (d : dict) (w : World)
    (Hd : d ≠ [])
    (Htrue : truthy (dict_get d "user") = true) :
  Client.deserialize P (PyDict d) w
  = (match deserialize_instance P (dict_get d "user") with
     | Ok u => Ok (Some (Client.from_entries d (Some u)))
     | Raise e => Raise e
     end, w).
Proof.
  rewrite deserialize_dict by exact Hd. rewrite Htrue.
  by destruct (deserialize_instance P (dict_get d "user")).
Qed.

(** X7: [deserialize] reads the dict under the eight field names only;
    two non-empty dicts that agree there give the same result, whatever
    other keys they hold. *)
Theorem deserialize_reads_fields_only (P : Provider) (d1 d2 : dict) (w : World)
    (Hd1 : d1 ≠ []) (Hd2 : d2 ≠ [])
    (Hagree : Forall (λ f, dict_get d1 (Client.field_name f)
                           = dict_get d2 (Client.field_name f)) Client.fields) :
  Client.deserialize P (PyDict d1) w = Client.deserialize P (PyDict d2) w.
Proof.
  rewrite !deserialize_dict by assumption.
  unfold Client.fields in Hagree.
  repeat match goal with
         | H : Forall _ (_ :: _) |- _ => apply Forall_cons_1 in H; destruct H as [? H]
         end.
  cbn in *. unfold Client.from_entries.
  repeat match goal with
         | H : dict_get d1 _ = dict_get d2 _ |- _ => rewrite H; clear H
         end.
  reflexivity.
Qed.

(** X8: for a Client with an owning user on which the two helpers of
    provider/utils.py succeed (the serialized user being non-empty),
    [deserialize(serialize(client))] returns a Client with the rehydrated
    user and the original name, URLs, identifier, secret and type; the
    primary key is not serialized and comes back as [None]. *)
Theorem round_trip_with_user (P : Provider) (c : Client.t) (w : World)
    (u u' : User.t) (j : pyval)
    (Huser : oauth2_client.user c = Some u)
    (Hser : serialize_instance P u = Ok j)
    (Htrue : truthy j = true)
    (Hdeser : deserialize_instance P j = Ok u') :
  ∃ data,
    Client.serialize P c = Ok data
    ∧ Client.deserialize P data w
      = (Ok (Some {| oauth2_client.id := PyNone;
                     oauth2_client.user := Some u';
                     oauth2_client.name := oauth2_client.name c;
                     oauth2_client.url := oauth2_client.url c;
                     oauth2_client.redirect_uri := oauth2_client.redirect_uri c;
                     oauth2_client.client_id := oauth2_client.client_id c;
                     oauth2_client.client_secret := oauth2_client.client_secret c;
                     oauth2_client.client_type := oauth2_client.client_type c |}), w).
Proof.
  unfold Client.serialize. rewrite Huser, Hser. eexists. split; [reflexivity|].
  rewrite deserialize_dict by discriminate.
  cbn [dict_get String.eqb Ascii.eqb Bool.eqb]. rewrite Htrue, Hdeser. reflexivity.
Qed.

Lemma round_trip_with_user_witness :
  ∃ data,
    Client.serialize (Sample.provider true) (Sample.app (Some Sample.alice) 1) = Ok data
    ∧ Client.deserialize (Sample.provider true) data Sample.world
      = (Ok (Some {| oauth2_client.id := PyNone;
                     oauth2_client.user :=
                       Some {| User.pk := None; User.username := "alice" |};
                     oauth2_client.name := PyStr "app";
                     oauth2_client.url := PyStr "http://app";
                     oauth2_client.redirect_uri := PyStr "http://app/cb";
                     oauth2_client.client_id := PyStr "cid";
                     oauth2_client.client_secret := PyStr "secret";
                     oauth2_client.client_type := PyInt 1 |}), Sample.world).
Proof.
  apply (round_trip_with_user (Sample.provider true) (Sample.app (Some Sample.alice) 1)
           Sample.world Sample.alice {| User.pk := None; User.username := "alice" |}
           (PyDict [("username", PyStr "alice")])); reflexivity.
Defined.

(** X9: a Client deserialized from a dict without a redirect URI cannot
    be printed: [__str__] returns [None] and [str()] raises [TypeError]. *)
Theorem str_without_redirect_uri (P : Provider) (d : dict) (w w' : World) (c : Client.t)
    (Hd : d ≠ [])
    (Hmissing : dict_mem d "redirect_uri" = false)
    (Hclient : Client.deserialize P (PyDict d) w = (Ok (Some c), w')) :
  py_str (Client.__str__ c) = Raise TypeError.
Proof.
  rewrite deserialize_dict in Hclient by exact Hd.
  assert (Hc : ∃ u, c = Client.from_entries d u).
  { destruct (truthy (dict_get d "user")).
    - destruct (deserialize_instance P (dict_get d "user")); cbn in Hclient;
        [|discriminate]. injection Hclient as <- _. eauto.
    - cbn in Hclient. destruct (Client.set_user (dict_get d "user")); cbn in Hclient;
        [|discriminate]. injection Hclient as <- _. eauto. }
  destruct Hc as [u ->]. unfold Client.__str__, Client.from_entries. cbn.
  by rewrite dict_get_missing.
Qed.

(** X10: a sandbox client is always public; put the other way, a Client
    that is not public is never a sandbox client. *)
Theorem sandbox_client_is_public (c : Client.t)
    (Hsandbox : truthy (Client.sandbox_client c) = true) :
  Client.is_public c = true.
Proof.
  revert Hsandbox. unfold Client.sandbox_client, Client.is_public.
  by destruct (oauth2_client.user c).
Qed.

Lemma kwarg_pure (kwargs : dict) (key : string) (v : pyval) (w : World) :
  Client.kwarg kwargs key (mret v) w
  = (Ok (if dict_mem kwargs key then dict_get kwargs key else v), w).
Proof. unfold Client.kwarg. by destruct (dict_mem kwargs key). Qed.

(** Keywords that are all field names raise no [TypeError] and do not
    include [pk]. *)
Lemma field_keywords_expected (kwargs : dict) :
  Forall (λ kv, kv.1 ∈ Client.field_names) kwargs →
  Client.unexpected kwargs = false ∧ dict_mem kwargs "pk" = false.
Proof.
  induction 1 as [|[k v] kwargs Hk _ [IHu IHpk]]; [done|].
  cbn [fst] in Hk.
  assert (Hcases : k = "id" ∨ k = "user" ∨ k = "name" ∨ k = "url"
                   ∨ k = "redirect_uri" ∨ k = "client_id"
                   ∨ k = "client_secret" ∨ k = "client_type").
  { apply list_elem_of_In in Hk. cbn in Hk. intuition (subst; auto). }
  unfold Client.unexpected in *. cbn [existsb dict_mem fst].
  rewrite IHu, IHpk.
  destruct Hcases as [->|[->|[->|[->|[->|[->|[->| ->]]]]]]]; split; reflexivity.
Qed.

(** X11: called with keywords that are all field names, the constructor
    generates only the credentials that were not given: a missing
    identifier is the next short token, a missing secret the next long
    token (drawn after the identifier's), a given value is kept, and
    exactly one draw is consumed per generated value. *)
Theorem client_init_credentials (kwargs : dict) (w : World) (u : option User.t)
    (Hfields : Forall (λ kv, kv.1 ∈ Client.field_names) kwargs)
    (Huser : Client.set_user (if dict_mem kwargs "user"
                              then dict_get kwargs "user" else PyNone) = Ok u) :
  ∃ c w',
    Client.init kwargs w = (Ok c, w')
    ∧ oauth2_client.user c = u
    ∧ oauth2_client.client_id c
      = (if dict_mem kwargs "client_id" then dict_get kwargs "client_id"
         else PyStr (short_tokens w (drawn w)))
    ∧ oauth2_client.client_secret c
      = (if dict_mem kwargs "client_secret" then dict_get kwargs "client_secret"
         else PyStr (long_tokens w (if dict_mem kwargs "client_id"
                                    then drawn w else S (drawn w))))
    ∧ drawn w' = ((if dict_mem kwargs "client_id" then 0 else 1)
                  + (if dict_mem kwargs "client_secret" then 0 else 1)
                  + drawn w)%nat
    ∧ clock w' = clock w.
Proof.
  destruct (field_keywords_expected kwargs Hfields) as [Hexpected Hpk].
  unfold Client.init. rewrite Hexpected.
  erewrite bind_ok by apply kwarg_pure.
  erewrite bind_ok by apply kwarg_pure.
  erewrite bind_ok by (unfold lift; rewrite Huser; reflexivity).
  do 3 (erewrite bind_ok by apply kwarg_pure).
  destruct (dict_mem kwargs "client_id") eqn:Eid,
           (dict_mem kwargs "client_secret") eqn:Esecret;
    (erewrite bind_ok by (unfold Client.kwarg; rewrite Eid; reflexivity));
    (erewrite bind_ok by (unfold Client.kwarg; rewrite Esecret; reflexivity));
    (erewrite bind_ok by apply kwarg_pure);
    (erewrite bind_ok by apply kwarg_pure);
    eexists _, _; repeat split; reflexivity.
Qed.

(** A keyword that is no field name, no [pk] and no [user_id] makes the
    constructor raise [TypeError], after the fields have been filled. *)
Example client_init_unexpected_keyword :
  (Client.init [("color", PyStr "red")] Sample.world).1 = Raise TypeError
  ∧ (Client.init [("pk", PyInt 5)] Sample.world).1
    = Ok (Client.from_entries [("id", PyInt 5); ("name", PyStr EmptyString);
                               ("url", PyStr EmptyString);
                               ("redirect_uri", PyStr EmptyString);
                               ("client_id", PyStr "s0");
                               ("client_secret", PyStr "L1")] None).
Proof. split; reflexivity. Qed.

(** ** More on AccessToken.save *)

(** The expiry policy leaves the world as it is, whatever it returns. *)
Lemma policy_leaves_world (P : Provider) (client : Client.t) (w : World) :
  (Client.get_default_token_expiry P client w).2 = w.
Proof.
  unfold Client.get_default_token_expiry, utils.get_token_expiry, utils.now,
    lift, mbind, M_bind.
  reflexivity.
Qed.

(** What [save] amounts to once the expiry is there. *)
Lemma save_with_expiry (P : Provider) (self : AccessToken.t) (w : World)
    (e : datetime.t) :
  oauth2_accesstoken.expires self = Some e →
  AccessToken.save P self w = AccessToken.Model_save self w.
Proof.
  intros He. unfold AccessToken.save. rewrite He.
  unfold mbind, M_bind, mret, M_ret. reflexivity.
Qed.

Lemma save_without_expiry (P : Provider) (self : AccessToken.t) (w : World) :
  oauth2_accesstoken.expires self = None →
  AccessToken.save P self w
  = match Client.get_default_token_expiry P (oauth2_accesstoken.client self) w with
    | (Ok e, _) => AccessToken.Model_save (AccessToken.set_expires (Some e) self) w
    | (Raise err, _) => (Raise err, w)
    end.
Proof.
  intros He. unfold AccessToken.save. rewrite He.
  pose proof (policy_leaves_world P (oauth2_accesstoken.client self) w) as Hw.
  unfold mbind, M_bind at 1. unfold mbind, M_bind at 1.
  destruct (Client.get_default_token_expiry P _ w) as [[e|err] w1];
    cbn in Hw; subst w1; reflexivity.
Qed.

(** X12: when the expiry is unset and the client's expiry policy
    raises, [save] raises the same exception before anything is written:
    the world is left as it was. *)
Theorem save_policy_failure_stores_nothing (P : Provider) (self : AccessToken.t)
    (w w1 : World) (err : exn)
    (Hunset : oauth2_accesstoken.expires self = None)
    (Hpolicy : Client.get_default_token_expiry P (oauth2_accesstoken.client self) w
               = (Raise err, w1)) :
  AccessToken.save P self w = (Raise err, w).
Proof.
  rewrite (save_without_expiry P self w Hunset). by rewrite Hpolicy.
Qed.

(** A successful save leaves a row that has a key and an expiry and sits
    in the table under that key. *)
Lemma saved_row (P : Provider) (self saved : AccessToken.t) (w w' : World) :
  AccessToken.save P self w = (Ok saved, w') →
  ∃ pk e,
    oauth2_accesstoken.id saved = Some pk
    ∧ oauth2_accesstoken.expires saved = Some e
    ∧ accesstokens w' !! pk = Some saved.
Proof.
  intros Hsave.
  assert (Hmodel : ∃ self' e, oauth2_accesstoken.expires self' = Some e
                              ∧ AccessToken.Model_save self' w = (Ok saved, w')).
  { destruct (oauth2_accesstoken.expires self) as [e|] eqn:He.
    - rewrite (save_with_expiry P self w e He) in Hsave. eauto.
    - rewrite (save_without_expiry P self w He) in Hsave.
      destruct (Client.get_default_token_expiry P _ w) as [[e|err] w1];
        [|discriminate Hsave].
      exists (AccessToken.set_expires (Some e) self), e. eauto. }
  destruct Hmodel as (self' & e & He & Hmodel).
  unfold AccessToken.Model_save in Hmodel. injection Hmodel as <- <-.
  eexists _, e. cbn. split; [reflexivity|]. split; [exact He|].
  apply lookup_insert_eq.
Qed.

(** X14: saving a saved token again, at any later time and under any
    configuration, succeeds and updates the row in place: same primary
    key, same expiry (the policy is not consulted again), same [created],
    [modified] set to the new clock reading, no row added. *)
Theorem resave_keeps_expiry (P P' : Provider) (self saved : AccessToken.t)
    (w w1 : World) (t : datetime.t)
    (Hsave : AccessToken.save P self w = (Ok saved, w1)) :
  ∃ again w2,
    AccessToken.save P' saved (set_clock t w1) = (Ok again, w2)
    ∧ oauth2_accesstoken.id again = oauth2_accesstoken.id saved
    ∧ oauth2_accesstoken.expires again = oauth2_accesstoken.expires saved
    ∧ oauth2_accesstoken.created again = oauth2_accesstoken.created saved
    ∧ oauth2_accesstoken.modified again = Some t
    ∧ dom (accesstokens w2) = dom (accesstokens w1).
Proof.
  destruct (saved_row P self saved w w1 Hsave) as (pk & e & Hid & He & Hrow).
  rewrite (save_with_expiry P' saved _ e He).
  unfold AccessToken.Model_save. cbn [accesstokens set_clock clock].
  rewrite Hid, Hrow. rewrite bool_decide_eq_false_2 by discriminate.
  eexists _, _. split; [reflexivity|]. cbn.
  repeat split; try done.
  apply dom_insert_lookup_L. by rewrite Hrow.
Qed.

(** X15: on a token whose expiry is unset [get_expire_delta] never
    returns a number: it raises [AttributeError] where
    [django.utils.timezone] is imported and [TypeError] otherwise. *)
Theorem get_expire_delta_without_expiry (P : Provider) (self : AccessToken.t)
    (reference : option datetime.t) (w : World)
    (Hunset : oauth2_accesstoken.expires self = None) :
  AccessToken.get_expire_delta P self reference w
  = (Raise (if timezone P then AttributeError else TypeError), w).
Proof.
  unfold AccessToken.get_expire_delta, AccessToken.align, AccessToken.and_then.
  rewrite Hunset.
  destruct reference as [r|], (timezone P); cbn;
    unfold mbind, M_bind, mret, M_ret, utils.now, lift; cbn;
    try reflexivity;
    match goal with |- context [django_timezone.aware ?d] =>
      destruct (django_timezone.aware d) end; reflexivity.
Qed.

(** X16: for two timestamps of the same kind that carry different
    tzinfo objects or report the same offset, the sign of the delta is
    right: it is negative exactly when the instant of expiry lies before
    the reference instant, and zero exactly when the token has less than
    one second left. *)
Theorem get_expire_delta_sign (P : Provider) (self : AccessToken.t)
    (reference : option datetime.t) (w : World) (e : datetime.t)
    (Hexpires : oauth2_accesstoken.expires self = Some e)
    (Hkind : django_timezone.aware e
             = django_timezone.aware (default (clock w) reference))
    (Hzone : datetime.same_tzinfo e (default (clock w) reference) = false
             ∨ datetime.utcoffset e
               = datetime.utcoffset (default (clock w) reference)) :
  ∃ seconds : Z,
    AccessToken.get_expire_delta P self reference w = (Ok seconds, w)
    ∧ (seconds < 0
       ↔ datetime.utc_us e < datetime.utc_us (default (clock w) reference))
    ∧ (seconds = 0
       ↔ 0 ≤ datetime.utc_us e - datetime.utc_us (default (clock w) reference)
         < 1000000).
Proof.
  destruct (expire_delta_same_kind P self reference w e Hexpires Hkind)
    as (diff & Hsub & Hdelta).
  pose proof (datetime_sub_instants _ _ _ Hsub Hzone) as Hdiff.
  eexists. split; [exact Hdelta|]. rewrite Hdiff.
  set (d := datetime.utc_us e - _).
  pose proof (Z.div_mod d 1000000). pose proof (Z.mod_pos_bound d 1000000). lia.
Qed.


(** X19: construction of an AccessToken always succeeds; the new token
    is not logged out, has no creation stamp and is not in the table; its
    token is the given one or else the next long token, and it keeps the
    expiry it was given, if any. *)
Theorem access_token_init_unsaved (P : Provider) (kw : AccessToken.kwargs) (w : World) :
  ∃ tok w',
    AccessToken.init P kw w = (Ok tok, w')
    ∧ oauth2_accesstoken.token tok
      = default (long_tokens w (drawn w)) (AccessToken.kw_token kw)
    ∧ oauth2_accesstoken.expires tok = AccessToken.kw_expires kw
    ∧ oauth2_accesstoken.logged_out tok = None
    ∧ oauth2_accesstoken.created tok = None
    ∧ drawn w' = match AccessToken.kw_token kw with
                | Some _ => drawn w
                | None => S (drawn w)
                end
    ∧ accesstokens w' = accesstokens w.
Proof.
  unfold AccessToken.init, Grant.or_default.
  destruct (AccessToken.kw_token kw) as [s|], (AccessToken.kw_scope kw) as [n|];
    unfold mbind, M_bind, mret, M_ret, utils.long_token;
    eexists _, _; repeat split; reflexivity.
Qed.

(** X20: a Grant built with an explicit code and expiry consults
    neither the token generator nor the clock: the constructor cannot
    fail and leaves the world as it is; the redirect URI defaults to the
    empty string and the scope to 0. *)
Theorem grant_init_explicit (P : Provider) (kw : Grant.kwargs) (w : World)
    (code : string) (expires : datetime.t)
    (Hcode : Grant.kw_code kw = Some code)
    (Hexpires : Grant.kw_expires kw = Some expires) :
  ∃ g,
    Grant.init P kw w = (Ok g, w)
    ∧ oauth2_grant.code g = code
    ∧ oauth2_grant.expires g = expires
    ∧ oauth2_grant.redirect_uri g = default EmptyString (Grant.kw_redirect_uri kw)
    ∧ oauth2_grant.scope g = default 0 (Grant.kw_scope kw)
    ∧ oauth2_grant.id g = None.
Proof.
  unfold Grant.init, Grant.or_default. rewrite Hcode, Hexpires.
  destruct (Grant.kw_redirect_uri kw), (Grant.kw_scope kw);
    eexists; repeat split; reflexivity.
Qed.

(** X21: a RefreshToken is built unexpired unless told otherwise, with
    the given token or else the next long token; building it stores
    nothing. *)
Theorem refresh_token_init_defaults (kw : RefreshToken.kwargs) (w : World) :
  ∃ r w',
    RefreshToken.init kw w = (Ok r, w')
    ∧ oauth2_refreshtoken.token r
      = default (long_tokens w (drawn w)) (RefreshToken.kw_token kw)
    ∧ oauth2_refreshtoken.expired r = default false (RefreshToken.kw_expired kw)
    ∧ oauth2_refreshtoken.access_token r = RefreshToken.kw_access_token kw
    ∧ drawn w' = match RefreshToken.kw_token kw with
                | Some _ => drawn w
                | None => S (drawn w)
                end
    ∧ refreshtokens w' = refreshtokens w.
Proof.
  unfold RefreshToken.init, Grant.or_default.
  destruct (RefreshToken.kw_token kw), (RefreshToken.kw_expired kw);
    eexists _, _; repeat split; reflexivity.
Qed.

(** ** Instances on the sample data *)

Lemma deserialize_empty_witness :
  Client.deserialize (Sample.provider true) (PyDict []) Sample.world
  = (Ok None, Sample.world).
Proof. apply deserialize_empty. reflexivity. Defined.

Lemma deserialize_not_a_dict_witness :
  Client.deserialize (Sample.provider true) (PyStr "cid") Sample.world
  = (Raise AttributeError, Sample.world).
Proof.
  apply deserialize_not_a_dict; [reflexivity | intros items; discriminate].
Defined.

Lemma deserialize_without_user_witness :
  Client.deserialize (Sample.provider true) (PyDict Sample.partial_entries) Sample.world
  = (Ok (Some (Client.from_entries Sample.partial_entries None)), Sample.world)
  ∧ (∀ key, dict_mem Sample.partial_entries key = false
            → dict_get Sample.partial_entries key = PyNone).
Proof.
  apply (deserialize_without_user (Sample.provider true) Sample.partial_entries);
    [discriminate | reflexivity].
Defined.

Lemma deserialize_false_user_rejected_witness :
  Client.deserialize (Sample.provider true)
    (PyDict [("user", PyInt 0); ("name", PyStr "app")]) Sample.world
  = (Raise ValueError, Sample.world).
Proof.
  apply deserialize_false_user_rejected; [discriminate | reflexivity | discriminate].
Defined.

Lemma deserialize_rehydrates_user_witness :
  Client.deserialize (Sample.provider true)
    (PyDict [("user", PyDict [("username", PyStr "alice")]); ("client_type", PyInt 1)])
    Sample.world
  = (Ok (Some (Client.from_entries
                 [("user", PyDict [("username", PyStr "alice")]); ("client_type", PyInt 1)]
                 (Some {| User.pk := None; User.username := "alice" |}))),
     Sample.world).
Proof.
  exact (deserialize_rehydrates_user (Sample.provider true)
           [("user", PyDict [("username", PyStr "alice")]); ("client_type", PyInt 1)]
           Sample.world ltac:(discriminate) eq_refl).
Defined.

Lemma deserialize_reads_fields_only_witness :
  Client.deserialize (Sample.provider true) (PyDict Sample.partial_entries) Sample.world
  = Client.deserialize (Sample.provider true)
      (PyDict [("client_type", PyInt 1); ("name", PyStr "app")]) Sample.world.
Proof.
  apply deserialize_reads_fields_only; [discriminate | discriminate |].
  repeat (constructor; [reflexivity|]). constructor.
Defined.

Lemma str_without_redirect_uri_witness :
  py_str (Client.__str__ (Client.from_entries Sample.partial_entries None))
  = Raise TypeError.
Proof.
  apply (str_without_redirect_uri (Sample.provider true) Sample.partial_entries
           Sample.world Sample.world); [discriminate | reflexivity | reflexivity].
Defined.

Lemma sandbox_client_is_public_witness :
  Client.is_public (Sample.app (Some Sample.sandbox) 0) = true.
Proof. apply sandbox_client_is_public. reflexivity. Defined.

Lemma client_init_credentials_witness :
  ∃ c w',
    Client.init [("name", PyStr "app")] Sample.world = (Ok c, w')
    ∧ oauth2_client.user c = None
    ∧ oauth2_client.client_id c = PyStr "s0"
    ∧ oauth2_client.client_secret c = PyStr "L1"
    ∧ drawn w' = 2%nat
    ∧ clock w' = clock Sample.world.
Proof.
  apply (client_init_credentials [("name", PyStr "app")] Sample.world None);
    [|reflexivity].
  apply Forall_cons; split; [|apply Forall_nil; exact I].
  apply list_elem_of_In. vm_compute. tauto.
Defined.

Lemma save_policy_failure_stores_nothing_witness :
  AccessToken.save (Sample.provider true) (Sample.token None) Sample.late_world
  = (Raise OverflowError, Sample.late_world).
Proof.
  apply (save_policy_failure_stores_nothing (Sample.provider true) (Sample.token None)
           Sample.late_world Sample.late_world OverflowError); reflexivity.
Defined.

Lemma resave_keeps_expiry_witness :
  ∃ again w2,
    AccessToken.save (Sample.provider false) Sample.saved_token
      (set_clock Sample.last_day Sample.world_after_save) = (Ok again, w2)
    ∧ oauth2_accesstoken.id again = oauth2_accesstoken.id Sample.saved_token
    ∧ oauth2_accesstoken.expires again = oauth2_accesstoken.expires Sample.saved_token
    ∧ oauth2_accesstoken.created again = oauth2_accesstoken.created Sample.saved_token
    ∧ oauth2_accesstoken.modified again = Some Sample.last_day
    ∧ dom (accesstokens w2) = dom (accesstokens Sample.world_after_save).
Proof.
  apply (resave_keeps_expiry (Sample.provider true) (Sample.provider false)
           (Sample.token None) Sample.saved_token Sample.world Sample.world_after_save).
  vm_compute; reflexivity.
Defined.

Lemma get_expire_delta_without_expiry_witness :
  AccessToken.get_expire_delta (Sample.provider true) (Sample.token None) None Sample.world
  = (Raise AttributeError, Sample.world).
Proof.
  exact (get_expire_delta_without_expiry (Sample.provider true) (Sample.token None)
           None Sample.world eq_refl).
Defined.

Lemma get_expire_delta_sign_witness :
  let e := Sample.at_ 738000 3598 500000 (Some UTC) in
  ∃ seconds : Z,
    AccessToken.get_expire_delta (Sample.provider false) (Sample.token (Some e))
      None Sample.world = (Ok seconds, Sample.world)
    ∧ (seconds < 0
       ↔ datetime.utc_us e < datetime.utc_us (default (clock Sample.world) None))
    ∧ (seconds = 0
       ↔ 0 ≤ datetime.utc_us e - datetime.utc_us (default (clock Sample.world) None)
         < 1000000).
Proof.
  cbv zeta.
  apply (get_expire_delta_sign (Sample.provider false)
           (Sample.token (Some (Sample.at_ 738000 3598 500000 (Some UTC))))
           None Sample.world (Sample.at_ 738000 3598 500000 (Some UTC)));
    [reflexivity | reflexivity | right; reflexivity].
Defined.

Lemma get_expire_delta_mixed_without_timezone_witness :
  AccessToken.get_expire_delta (Sample.provider false)
    (Sample.token (Some (Sample.at_ 738000 3598 500000 None)))
    (Some Sample.t0) Sample.world
  = (Raise TypeError, Sample.world).
Proof.
  apply (get_expire_delta_mixed_without_timezone (Sample.provider false) _
           (Sample.at_ 738000 3598 500000 None)); [reflexivity | reflexivity |].
  vm_compute. discriminate.
Defined.


Lemma grant_init_explicit_witness :
  let kw := {| Grant.kw_user := Sample.alice;
               Grant.kw_client := Sample.app (Some Sample.alice) 1;
               Grant.kw_code := Some "code"; Grant.kw_expires := Some Sample.t0;
               Grant.kw_redirect_uri := None; Grant.kw_scope := None |} in
  ∃ g,
    Grant.init (Sample.provider true) kw Sample.late_world = (Ok g, Sample.late_world)
    ∧ oauth2_grant.code g = "code"
    ∧ oauth2_grant.expires g = Sample.t0
    ∧ oauth2_grant.redirect_uri g = EmptyString
    ∧ oauth2_grant.scope g = 0
    ∧ oauth2_grant.id g = None.
Proof.
  cbv zeta.
  exact (grant_init_explicit (Sample.provider true)
           {| Grant.kw_user := Sample.alice;
              Grant.kw_client := Sample.app (Some Sample.alice) 1;
              Grant.kw_code := Some "code"; Grant.kw_expires := Some Sample.t0;
              Grant.kw_redirect_uri := None; Grant.kw_scope := None |}
           Sample.late_world "code" Sample.t0 eq_refl eq_refl).
Defined.
